(** * sage_lock: the volume-key gesture detector of sage_lock.cpp

    The program keeps five globals (a four-slot history of virtual-key
    codes, a write cursor, the tick count of the last volume event, the
    lock flag and the list of touch-screen device ids) and updates them
    from one thread, in [SetKbdHistoryIndex], once per volume key-down.

    The globals are a record that is passed explicitly; the tick count
    that [GetTickCount64] returns is an argument of the functions that read
    it; the processes started by [ToggleTouchDevice] and the sounds played
    by [SoundEffect] are returned as a list of requests, in program
    order. *)

From Stdlib Require Import ZArith Lia Bool String.
From stdpp Require Import base list.

Open Scope Z_scope.

(** ** Machine integers *)

(** [WORD] is an unsigned 16-bit integer and [DWORD64] (the [ULONGLONG]
    of [GetTickCount64]) an unsigned 64-bit one; arithmetic on them wraps
    around. *)
Module Win32.

Definition WORD_range : Z := 2 ^ 16.
Definition DWORD64_range : Z := 2 ^ 64.

Definition wrap16 (z : Z) : Z := z mod WORD_range.
Definition wrap64 (z : Z) : Z := z mod DWORD64_range.

(** [!x] on an [int]: true exactly when [x] is zero. *)
Definition lnot (x : Z) : bool := x =? 0.

End Win32.

(** ** Globals *)

Record globals : Type := Globals {
  Volume_Event_History : list Z;      (* std::array<DWORD, 4> *)
  Current_Index : Z;                  (* WORD *)
  Last_Volume_Event : Z;              (* DWORD64 *)
  lock_enabled : Z;                   (* int *)
  g_TouchScreens : list string        (* std::vector<std::wstring> *)
}.

(** The globals as their initialisers leave them, once [GetTouchScreens]
    has filled the device list. *)
Definition initial_globals (screens : list string) : globals :=
  {| Volume_Event_History := [0; 0; 0; 0];
     Current_Index := 0;
     Last_Volume_Event := 0;
     lock_enabled := 0;
     g_TouchScreens := screens |}.

Definition set_Volume_Event_History (h : list Z) (g : globals) : globals :=
  {| Volume_Event_History := h;
     Current_Index := Current_Index g;
     Last_Volume_Event := Last_Volume_Event g;
     lock_enabled := lock_enabled g;
     g_TouchScreens := g_TouchScreens g |}.

Definition set_Current_Index (c : Z) (g : globals) : globals :=
  {| Volume_Event_History := Volume_Event_History g;
     Current_Index := c;
     Last_Volume_Event := Last_Volume_Event g;
     lock_enabled := lock_enabled g;
     g_TouchScreens := g_TouchScreens g |}.

Definition set_Last_Volume_Event (t : Z) (g : globals) : globals :=
  {| Volume_Event_History := Volume_Event_History g;
     Current_Index := Current_Index g;
     Last_Volume_Event := t;
     lock_enabled := lock_enabled g;
     g_TouchScreens := g_TouchScreens g |}.

Definition set_lock_enabled (l : Z) (g : globals) : globals :=
  {| Volume_Event_History := Volume_Event_History g;
     Current_Index := Current_Index g;
     Last_Volume_Event := Last_Volume_Event g;
     lock_enabled := l;
     g_TouchScreens := g_TouchScreens g |}.

(** What the type of the globals guarantees: the history has four slots
    and the cursor is a [WORD]. *)
Definition well_typed (g : globals) : Prop :=
  length (Volume_Event_History g) = 4%nat /\
  0 <= Current_Index g < Win32.WORD_range.

(** ** Requests to the outside *)

Inductive request : Type :=
| pnputil (switch : string) (deviceId : string)
| PlaySound (soundFile : string).

(** [ToggleTouchDevice] runs [pnputil.exe] with [/enable-device] or
    [/disable-device] on the device id. *)
Definition ToggleTouchDevice (deviceId : string) (enable : bool) : list request :=
  [pnputil (if enable then "/enable-device" else "/disable-device")%string deviceId].

Definition SoundEffect (enable : bool) : list request :=
  let soundFile :=
    (if enable then "C:\Windows\Media\Speech On.wav"
     else "C:\Windows\Media\Speech Off.wav")%string in
  [PlaySound soundFile].

(** ** The virtual-key codes *)

(** [VK_VOLUME_UP] and [VK_VOLUME_DOWN] are macros of winuser.h, a header
    of the Windows SDK that is not part of the repository. The program is
    verified for any two codes. *)
Class winuser : Type := {
  VK_VOLUME_UP : Z;
  VK_VOLUME_DOWN : Z
}.

(** The codes the Windows SDK assigns, used for the concrete runs. *)
Definition windows_sdk : winuser :=
  {| VK_VOLUME_UP := 0xAF; VK_VOLUME_DOWN := 0xAE |}.

(** ** The debouncer *)

(** [GetAvailableKbdHistoryIndex], with the tick count it reads as
    [dwCurrentTime]. Returns the slot index and the updated globals. *)
Definition GetAvailableKbdHistoryIndex (dwCurrentTime : Z) (g : globals)
  : Z * globals :=
  let timeSinceLast := Win32.wrap64 (dwCurrentTime - Last_Volume_Event g) in
  let g := set_Last_Volume_Event dwCurrentTime g in
  let g :=
    if timeSinceLast >? 500 then set_Current_Index 0 g
    else set_Current_Index (Win32.wrap16 (Current_Index g + 1)) g in
  let g :=
    if Current_Index g >? 3 then set_Current_Index 0 g else g in
  (Current_Index g, g).

(** The globals in the middle of [SetKbdHistoryIndex]: the debouncer ran
    and the key is stored, the matcher is not yet consulted. *)
Definition stored (dwCurrentTime vkKey : Z) (g : globals) : globals :=
  let g1 := snd (GetAvailableKbdHistoryIndex dwCurrentTime g) in
  set_Volume_Event_History
    (<[Z.to_nat (fst (GetAvailableKbdHistoryIndex dwCurrentTime g)) := vkKey]>
       (Volume_Event_History g1)) g1.

Section Gesture.

Context {W : winuser}.

(** ** The matcher *)

Definition CheckForVolumeUpDownUpDown (g : globals) : bool * globals :=
  let g := set_Current_Index 0 g in
  let h := Volume_Event_History g in
  ((h !!! 0%nat =? VK_VOLUME_UP) &&
   (h !!! 1%nat =? VK_VOLUME_DOWN) &&
   (h !!! 2%nat =? VK_VOLUME_UP) &&
   (h !!! 3%nat =? VK_VOLUME_DOWN), g).

(** ** Accepting one key-down *)

Definition SetKbdHistoryIndex (dwCurrentTime : Z) (vkKey : Z) (g : globals)
  : globals * list request :=
  let '(i, g) := GetAvailableKbdHistoryIndex dwCurrentTime g in
  let g := set_Volume_Event_History
             (<[Z.to_nat i := vkKey]> (Volume_Event_History g)) g in
  if i =? 3 then
    let '(matched, g) := CheckForVolumeUpDownUpDown g in
    if matched then
      let g := set_lock_enabled (Z.b2z (Win32.lnot (lock_enabled g))) g in
      let enable := Win32.lnot (lock_enabled g) in
      (g, flat_map (fun screen => ToggleTouchDevice screen enable)
                   (g_TouchScreens g)
          ++ SoundEffect enable)
    else (g, [])
  else (g, []).

(** A sequence of key-downs, each with the tick count read while it is
    handled, and the requests they cause. *)
Fixpoint run (events : list (Z * Z)) (g : globals) : globals * list request :=
  match events with
  | [] => (g, [])
  | (dwCurrentTime, vkKey) :: events =>
      let '(g, out) := SetKbdHistoryIndex dwCurrentTime vkKey g in
      let '(g, out') := run events g in
      (g, out ++ out')
  end.

(** The slot each key-down of a sequence is written to: the index
    [GetAvailableKbdHistoryIndex] returns while it is handled. *)
Fixpoint slots (events : list (Z * Z)) (g : globals) : list Z :=
  match events with
  | [] => []
  | (dwCurrentTime, vkKey) :: events =>
      fst (GetAvailableKbdHistoryIndex dwCurrentTime g)
      :: slots events (fst (SetKbdHistoryIndex dwCurrentTime vkKey g))
  end.

(** ** The operations as a step relation *)

Inductive core_step : globals -> globals -> Prop :=
| step_debounce (dwCurrentTime : Z) (g : globals) :
    core_step g (snd (GetAvailableKbdHistoryIndex dwCurrentTime g))
| step_match (g : globals) :
    core_step g (snd (CheckForVolumeUpDownUpDown g))
| step_accept (dwCurrentTime vkKey : Z) (g : globals) :
    core_step g (fst (SetKbdHistoryIndex dwCurrentTime vkKey g)).

Inductive reachable (screens : list string) : globals -> Prop :=
| reach_initial : reachable screens (initial_globals screens)
| reach_step (g g' : globals) :
    reachable screens g -> core_step g g' -> reachable screens g'.

(** ** The specification's wording *)

(** The cursor of the debouncer as the specification words it: 0 when
    more than 500 ms have elapsed, otherwise cursor + 1, wrapping to 0
    when that exceeds 3. *)
Definition debouncer_spec_cursor (elapsed cursor : Z) : Z :=
  if elapsed >? 500 then 0
  else if cursor + 1 >? 3 then 0 else cursor + 1.

(** The pattern UP, DOWN, UP, DOWN. *)
Definition gesture : list Z :=
  [VK_VOLUME_UP; VK_VOLUME_DOWN; VK_VOLUME_UP; VK_VOLUME_DOWN].

End Gesture.

(** ** Concrete inputs *)

Module Sample.

Definition UP : Z := @VK_VOLUME_UP windows_sdk.
Definition DOWN : Z := @VK_VOLUME_DOWN windows_sdk.

Definition screens : list string := ["HID\touch0"; "HID\touch1"]%string.

(** The gesture from power-up, presses 100 ms apart. *)
Definition one_gesture : list (Z * Z) :=
  [(1000, UP); (1100, DOWN); (1200, UP); (1300, DOWN)].

(** The gesture twice in a row, all eight presses 100 ms apart. *)
Definition double_gesture : list (Z * Z) :=
  one_gesture ++ [(1400, UP); (1500, DOWN); (1600, UP); (1700, DOWN)].

(** The gesture, then DOWN, UP, DOWN, all presses 100 ms apart. *)
Definition gesture_then_three : list (Z * Z) :=
  one_gesture ++ [(1400, DOWN); (1500, UP); (1600, DOWN)].

(** UP four times, then DOWN, UP, DOWN, all presses 400 ms apart. *)
Definition slow_seven : list (Z * Z) :=
  [(1000, UP); (1400, UP); (1800, UP); (2200, UP);
   (2600, DOWN); (3000, UP); (3400, DOWN)].

(** The globals after the first three presses of the gesture. *)
Definition three_pressed : globals :=
  fst (@run windows_sdk [(1000, UP); (1100, DOWN); (1200, UP)]
         (initial_globals screens)).

(** The globals after UP, DOWN, DOWN. *)
Definition three_wrong : globals :=
  fst (@run windows_sdk [(1000, UP); (1100, DOWN); (1200, DOWN)]
         (initial_globals screens)).

End Sample.

(** ** Rounds of requests *)

(** What one toggle asks of the outside: every device, then one sound. *)
Definition round (screens : list string) (enable : bool) : list request :=
  flat_map (fun screen => ToggleTouchDevice screen enable) screens
  ++ SoundEffect enable.

(** [n] rounds in a row whose flag flips from one to the next. *)
Fixpoint rounds (screens : list string) (enable : bool) (n : nat)
  : list request :=
  match n with
  | O => []
  | S n => round screens enable ++ rounds screens (negb enable) n
  end.

(** Whether each key-down of a sequence comes more than 500 ms after the
    one before it, [last] being the tick count of the key-down before the
    first. *)
Fixpoint paused_throughout (last : Z) (events : list (Z * Z)) : bool :=
  match events with
  | [] => true
  | (dwCurrentTime, _) :: events =>
      (Win32.wrap64 (dwCurrentTime - last) >? 500)
      && paused_throughout dwCurrentTime events
  end.

(** The device ids a list of requests hands to pnputil. *)
Fixpoint pnputil_ids (out : list request) : list string :=
  match out with
  | [] => []
  | pnputil _ deviceId :: out => deviceId :: pnputil_ids out
  | PlaySound _ :: out => pnputil_ids out
  end.

(** How many sounds a list of requests plays. *)
Fixpoint sounds (out : list request) : nat :=
  match out with
  | [] => O
  | PlaySound _ :: out => S (sounds out)
  | pnputil _ _ :: out => sounds out
  end.

(** ** The window procedure *)

(** The message and raw-input constants [pWndProc] compares with; they
    are macros of winuser.h. *)
Class winuser_input : Type := {
  WM_INPUT : Z;
  RIM_TYPEKEYBOARD : Z;
  WM_KEYDOWN : Z
}.

Definition windows_sdk_input : winuser_input :=
  {| WM_INPUT := 0x00FF; RIM_TYPEKEYBOARD := 1; WM_KEYDOWN := 0x0100 |}.

(** What [pWndProc] sees of one message: [uMsg], the size the first
    [GetRawInputData] reports, the value the second returns, and the
    fields it reads from the buffer. *)
Record window_message : Type := WindowMessage {
  uMsg : Z;
  dwSize : Z;
  copied : Z;
  dwType : Z;
  Message : Z;
  VKey : Z
}.

Section Driver.

Context {W : winuser} {I : winuser_input}.

(** [pWndProc]; [dwCurrentTime] is the tick count [SetKbdHistoryIndex]
    reads when it is called. The result of [DefWindowProc] is left to the
    system. *)
Definition pWndProc (dwCurrentTime : Z) (m : window_message) (g : globals)
  : globals * list request :=
  if uMsg m =? WM_INPUT then
    if dwSize m >? 0 then
      if (copied m =? dwSize m) &&
         (dwType m =? RIM_TYPEKEYBOARD) &&
         (Message m =? WM_KEYDOWN) &&
         ((VKey m =? VK_VOLUME_UP) || (VKey m =? VK_VOLUME_DOWN))
      then SetKbdHistoryIndex dwCurrentTime (VKey m) g
      else (g, [])
    else (g, [])
  else (g, []).

(** The message loop of [InputEventThread]: every message got is
    dispatched to [pWndProc]. *)
Fixpoint InputEventThread (messages : list (Z * window_message)) (g : globals)
  : globals * list request :=
  match messages with
  | [] => (g, [])
  | (dwCurrentTime, m) :: messages =>
      let '(g, out) := pWndProc dwCurrentTime m g in
      let '(g, out') := InputEventThread messages g in
      (g, out ++ out')
  end.

(** Whether a message is a key-down of one of the two volume keys. *)
Definition volume_key_down (m : window_message) : bool :=
  (uMsg m =? WM_INPUT) && (dwSize m >? 0) && (copied m =? dwSize m) &&
  (dwType m =? RIM_TYPEKEYBOARD) && (Message m =? WM_KEYDOWN) &&
  ((VKey m =? VK_VOLUME_UP) || (VKey m =? VK_VOLUME_DOWN)).

(** The volume key-downs among the messages, with their tick counts. *)
Fixpoint volume_key_downs (messages : list (Z * window_message))
  : list (Z * Z) :=
  match messages with
  | [] => []
  | (dwCurrentTime, m) :: messages =>
      if volume_key_down m
      then (dwCurrentTime, VKey m) :: volume_key_downs messages
      else volume_key_downs messages
  end.

(** A history slot holds its initial 0 or one of the two key codes. *)
Definition volume_tag (v : Z) : Prop :=
  v = 0 \/ v = VK_VOLUME_UP \/ v = VK_VOLUME_DOWN.

End Driver.

(** ** Enumerating the touch screens *)

(** The usage page and usages [GetTouchScreens] filters on; they are
    macros of hidusage.h. *)
Class hidusage : Type := {
  HID_USAGE_PAGE_DIGITIZER : Z;
  HID_USAGE_DIGITIZER_HEAT_MAP : Z;
  HID_USAGE_DIGITIZER_TOUCH_SCREEN : Z;
  HID_USAGE_DIGITIZER_MULTI_POINT : Z
}.

Definition windows_sdk_hidusage : hidusage :=
  {| HID_USAGE_PAGE_DIGITIZER := 0x0D;
     HID_USAGE_DIGITIZER_HEAT_MAP := 0x0F;
     HID_USAGE_DIGITIZER_TOUCH_SCREEN := 0x04;
     HID_USAGE_DIGITIZER_MULTI_POINT := 0x0C |}.

(** What the system answers for one device interface of the enumeration:
    whether [LocalAlloc] gave a buffer, whether the interface detail was
    read, the handle [CreateFile] returned ([None] for
    [INVALID_HANDLE_VALUE]), whether the preparsed data and the
    capabilities were read, the usage page and usage found in [caps], and
    the outcome and buffer of [CM_Get_Device_IDW]. *)
Record hid_interface : Type := HidInterface {
  detailData : bool;
  detail_read : bool;
  deviceHandle : option Z;
  preparsed_read : bool;
  caps_read : bool;
  UsagePage : Z;
  Usage : Z;
  deviceId_read : bool;
  deviceId : string
}.

(** The releasing calls [GetTouchScreens] makes; [LocalFree] is marked
    with the index of the interface whose buffer it frees, the other two
    with the device handle. Debug output is not recorded. *)
Inductive setup_call : Type :=
| CloseHandle (deviceHandle : Z)
| HidD_FreePreparsedData (deviceHandle : Z)
| LocalFree (i : nat)
| SetupDiDestroyDeviceInfoList.

Section Enumeration.

Context {H : hidusage}.

(** The filter for touch-screen type devices. *)
Definition touch_screen_caps (d : hid_interface) : bool :=
  (UsagePage d =? HID_USAGE_PAGE_DIGITIZER) &&
  ((Usage d =? HID_USAGE_DIGITIZER_HEAT_MAP) ||
   (Usage d =? HID_USAGE_DIGITIZER_TOUCH_SCREEN) ||
   (Usage d =? HID_USAGE_DIGITIZER_MULTI_POINT)).

(** One turn of the loop of [GetTouchScreens], for interface [i]. *)
Definition GetTouchScreens_body (i : nat) (d : hid_interface) (g : globals)
  : globals * list setup_call :=
  if negb (detailData d) then (g, [])
  else
    let '(g, calls) :=
      if detail_read d then
        match deviceHandle d with
        | Some h =>
            if preparsed_read d then
              let '(g, calls) :=
                if touch_screen_caps d then
                  ({| Volume_Event_History := Volume_Event_History g;
                      Current_Index := Current_Index g;
                      Last_Volume_Event := Last_Volume_Event g;
                      lock_enabled := lock_enabled g;
                      g_TouchScreens := g_TouchScreens g ++ [deviceId d] |},
                   [CloseHandle h])
                else (g, []) in
              (g, calls ++ [HidD_FreePreparsedData h])
            else (g, [])
        | None => (g, [])
        end
      else (g, []) in
    (g, calls ++ [LocalFree i]).

Fixpoint GetTouchScreens_loop (i : nat) (interfaces : list hid_interface)
  (g : globals) : globals * list setup_call :=
  match interfaces with
  | [] => (g, [])
  | d :: interfaces =>
      let '(g, calls) := GetTouchScreens_body i d g in
      let '(g, calls') := GetTouchScreens_loop (S i) interfaces g in
      (g, calls ++ calls')
  end.

(** [GetTouchScreens]; [deviceInfoSet] is [None] when
    [SetupDiGetClassDevs] fails and otherwise the interfaces
    [SetupDiEnumDeviceInterfaces] yields, in order. *)
Definition GetTouchScreens (deviceInfoSet : option (list hid_interface))
  (g : globals) : globals * list setup_call :=
  match deviceInfoSet with
  | None => (g, [])
  | Some interfaces =>
      let '(g, calls) := GetTouchScreens_loop 0 interfaces g in
      (g, calls ++ [SetupDiDestroyDeviceInfoList])
  end.

(** Whether the loop adds the interface to [g_TouchScreens]. *)
Definition registered (d : hid_interface) : bool :=
  detailData d && detail_read d && bool_decide (is_Some (deviceHandle d)) &&
  preparsed_read d && touch_screen_caps d.

(** Whether the loop opens the interface with [CreateFile]. *)
Definition opened (d : hid_interface) : bool :=
  detailData d && detail_read d && bool_decide (is_Some (deviceHandle d)).

End Enumeration.

(** The handles a list of calls closes. *)
Fixpoint closed_handles (calls : list setup_call) : list Z :=
  match calls with
  | [] => []
  | CloseHandle h :: calls => h :: closed_handles calls
  | _ :: calls => closed_handles calls
  end.

(** The interfaces whose buffer a list of calls frees. *)
Fixpoint freed_buffers (calls : list setup_call) : list nat :=
  match calls with
  | [] => []
  | LocalFree i :: calls => i :: freed_buffers calls
  | _ :: calls => freed_buffers calls
  end.

(** The handles of a list of interfaces. *)
Definition handles (interfaces : list hid_interface) : list Z :=
  omap deviceHandle interfaces.

(** ** The program *)

(** The error code [CheckIfAlreadyRunning] compares with; a macro of
    winerror.h. *)
Class winerror : Type := {
  ERROR_ALREADY_EXISTS : Z
}.

Definition windows_sdk_winerror : winerror :=
  {| ERROR_ALREADY_EXISTS := 183 |}.

(** What the program does that can be seen from outside. *)
Inductive output : Type :=
| MessageBoxW (lpText lpCaption : string)
| setup (c : setup_call)
| requested (r : request).

Section Program.

Context {W : winuser} {I : winuser_input} {H : hidusage} {E : winerror}.

(** [CheckIfAlreadyRunning], with the value [GetLastError] returns after
    [CreateMutex]. *)
Definition CheckIfAlreadyRunning (lastError : Z) : bool :=
  lastError =? ERROR_ALREADY_EXISTS.

(** [WinMain]: the inputs are what the system answers while it runs. *)
Definition WinMain (lastError : Z)
  (deviceInfoSet : option (list hid_interface))
  (messages : list (Z * window_message)) : list output :=
  if CheckIfAlreadyRunning lastError then
    [MessageBoxW "SageLock is already running" "SageLock"]
  else
    let '(g, calls) := GetTouchScreens deviceInfoSet (initial_globals []) in
    let '(g, out) := InputEventThread messages g in
    map setup calls ++ map requested out.

End Program.

(** The requests among the outputs of the program. *)
Fixpoint requests_of (outs : list output) : list request :=
  match outs with
  | [] => []
  | requested r :: outs => r :: requests_of outs
  | _ :: outs => requests_of outs
  end.

(** ** More concrete inputs *)

Module SampleInput.

(** Four key-downs 600 ms apart. *)
Definition slow_four : list (Z * Z) :=
  [(1000, Sample.UP); (1600, Sample.DOWN); (2200, Sample.UP);
   (2800, Sample.DOWN)].

(** The key-up of the volume-up key ([WM_KEYUP] is 0x0101). *)
Definition volume_up_released : window_message :=
  {| uMsg := 0x00FF; dwSize := 40; copied := 40; dwType := 1;
     Message := 0x0101; VKey := 0xAF |}.

End SampleInput.

(** * Properties *)

Section Properties.

Context {W : winuser}.

Implicit Types (g : globals) (now vk : Z).

(** Reduce field reads of updated globals, leaving the debouncer and the
    matcher folded. *)
Ltac fields :=
  cbn [fst snd stored
       Volume_Event_History Current_Index Last_Volume_Event lock_enabled
       g_TouchScreens set_Volume_Event_History set_Current_Index
       set_Last_Volume_Event set_lock_enabled].

(** ** The debouncer *)

Lemma GetAvailableKbdHistoryIndex_unfold now g :
  GetAvailableKbdHistoryIndex now g =
  let i :=
    if Win32.wrap64 (now - Last_Volume_Event g) >? 500 then 0
    else if Win32.wrap16 (Current_Index g + 1) >? 3 then 0
         else Win32.wrap16 (Current_Index g + 1) in
  (i, set_Current_Index i (set_Last_Volume_Event now g)).
Proof.
  unfold GetAvailableKbdHistoryIndex.
  destruct (Win32.wrap64 (now - Last_Volume_Event g) >? 500); cbn.
  - reflexivity.
  - destruct (Win32.wrap16 (Current_Index g + 1) >? 3); reflexivity.
Qed.

Lemma GetAvailableKbdHistoryIndex_cursor now g :
  Current_Index (snd (GetAvailableKbdHistoryIndex now g)) =
  fst (GetAvailableKbdHistoryIndex now g).
Proof. rewrite GetAvailableKbdHistoryIndex_unfold. reflexivity. Qed.

Lemma GetAvailableKbdHistoryIndex_range now g :
  0 <= fst (GetAvailableKbdHistoryIndex now g) <= 3.
Proof.
  rewrite GetAvailableKbdHistoryIndex_unfold. cbn.
  destruct (Win32.wrap64 (now - Last_Volume_Event g) >? 500); [lia |].
  destruct (Z.gtb_spec (Win32.wrap16 (Current_Index g + 1)) 3); [lia |].
  assert (0 <= Win32.wrap16 (Current_Index g + 1)).
  { unfold Win32.wrap16, Win32.WORD_range. apply Z.mod_pos_bound. lia. }
  lia.
Qed.

Lemma GetAvailableKbdHistoryIndex_frame now g :
  Volume_Event_History (snd (GetAvailableKbdHistoryIndex now g)) =
    Volume_Event_History g /\
  Last_Volume_Event (snd (GetAvailableKbdHistoryIndex now g)) = now /\
  lock_enabled (snd (GetAvailableKbdHistoryIndex now g)) = lock_enabled g /\
  g_TouchScreens (snd (GetAvailableKbdHistoryIndex now g)) = g_TouchScreens g.
Proof. rewrite GetAvailableKbdHistoryIndex_unfold. cbn. auto. Qed.

(** A cursor that is a [WORD] does not overflow in a way that shows: the
    increment followed by the clamp is the specification's wrap. *)
Lemma wrap16_clamp c :
  0 <= c < Win32.WORD_range ->
  (if Win32.wrap16 (c + 1) >? 3 then 0 else Win32.wrap16 (c + 1)) =
  (if c + 1 >? 3 then 0 else c + 1).
Proof.
  unfold Win32.wrap16, Win32.WORD_range. intros Hc.
  destruct (Z.eq_dec c (2 ^ 16 - 1)) as [-> | Hne].
  - reflexivity.
  - rewrite Z.mod_small by lia. reflexivity.
Qed.

(** ** The matcher *)

Lemma CheckForVolumeUpDownUpDown_globals g :
  snd (CheckForVolumeUpDownUpDown g) = set_Current_Index 0 g.
Proof. reflexivity. Qed.

(** On a four-slot history the matcher answers whether it is the
    gesture. *)
Lemma CheckForVolumeUpDownUpDown_spec g :
  length (Volume_Event_History g) = 4%nat ->
  fst (CheckForVolumeUpDownUpDown g) = true <->
  Volume_Event_History g = gesture.
Proof.
  intros Hlen. unfold CheckForVolumeUpDownUpDown, gesture. cbn.
  destruct (Volume_Event_History g) as [|a [|b [|c [|d [|e h]]]]];
    try discriminate Hlen.
  cbn. rewrite !andb_true_iff, !Z.eqb_eq. split.
  - intros [[[-> ->] ->] ->]. reflexivity.
  - intros [= -> -> -> ->]. auto.
Qed.

(** ** Accepting one key-down *)

Lemma SetKbdHistoryIndex_unfold now vk g :
  SetKbdHistoryIndex now vk g =
  if fst (GetAvailableKbdHistoryIndex now g) =? 3 then
    if fst (CheckForVolumeUpDownUpDown (stored now vk g)) then
      let l := Z.b2z (Win32.lnot (lock_enabled g)) in
      (set_lock_enabled l (set_Current_Index 0 (stored now vk g)),
       flat_map (fun screen => ToggleTouchDevice screen (Win32.lnot l))
                (g_TouchScreens g)
       ++ SoundEffect (Win32.lnot l))
    else (set_Current_Index 0 (stored now vk g), [])
  else (stored now vk g, []).
Proof.
  unfold SetKbdHistoryIndex, stored.
  destruct (GetAvailableKbdHistoryIndex now g) as [i g1] eqn:E.
  pose proof (GetAvailableKbdHistoryIndex_frame now g) as F.
  rewrite E in F. cbn in F. destruct F as (_ & _ & Hl & Hs).
  cbn [fst snd].
  destruct (i =? 3); [| reflexivity].
  destruct (CheckForVolumeUpDownUpDown _) as [m g2] eqn:C.
  pose proof (f_equal snd C) as C2. rewrite CheckForVolumeUpDownUpDown_globals in C2.
  cbn [fst snd] in *. subst g2.
  destruct m; [| reflexivity].
  cbn. rewrite Hl, Hs. reflexivity.
Qed.

Lemma SetKbdHistoryIndex_history now vk g :
  Volume_Event_History (fst (SetKbdHistoryIndex now vk g)) =
  <[Z.to_nat (fst (GetAvailableKbdHistoryIndex now g)) := vk]>
    (Volume_Event_History g).
Proof.
  rewrite SetKbdHistoryIndex_unfold.
  destruct (_ =? 3); [destruct (fst (CheckForVolumeUpDownUpDown _)) |];
    fields; now rewrite (proj1 (GetAvailableKbdHistoryIndex_frame now g)).
Qed.

Lemma SetKbdHistoryIndex_last now vk g :
  Last_Volume_Event (fst (SetKbdHistoryIndex now vk g)) = now.
Proof.
  rewrite SetKbdHistoryIndex_unfold.
  destruct (_ =? 3); [destruct (fst (CheckForVolumeUpDownUpDown _)) |];
    fields; apply (GetAvailableKbdHistoryIndex_frame now g).
Qed.

(** After a key-down the cursor is the slot that was written, except
    after a write to slot 3, where the matcher has set it to 0. *)
Lemma SetKbdHistoryIndex_cursor now vk g :
  Current_Index (fst (SetKbdHistoryIndex now vk g)) =
  if fst (GetAvailableKbdHistoryIndex now g) =? 3 then 0
  else fst (GetAvailableKbdHistoryIndex now g).
Proof.
  rewrite SetKbdHistoryIndex_unfold.
  destruct (_ =? 3); [destruct (fst (CheckForVolumeUpDownUpDown _)) |];
    fields; solve [reflexivity | apply GetAvailableKbdHistoryIndex_cursor].
Qed.

Lemma stored_history now vk g :
  Volume_Event_History (stored now vk g) =
  Volume_Event_History (fst (SetKbdHistoryIndex now vk g)).
Proof.
  rewrite SetKbdHistoryIndex_history. fields.
  now rewrite (proj1 (GetAvailableKbdHistoryIndex_frame now g)).
Qed.

Lemma well_typed_SetKbdHistoryIndex now vk g :
  well_typed g -> well_typed (fst (SetKbdHistoryIndex now vk g)).
Proof.
  intros [Hlen _]. split.
  - rewrite SetKbdHistoryIndex_history, length_insert. exact Hlen.
  - rewrite SetKbdHistoryIndex_cursor.
    pose proof (GetAvailableKbdHistoryIndex_range now g).
    unfold Win32.WORD_range.
    destruct (_ =? 3); lia.
Qed.

Lemma reachable_run screens events : forall g,
  reachable screens g -> reachable screens (fst (run events g)).
Proof.
  induction events as [| [t vk] events IH]; intros g Hg; [exact Hg |].
  cbn [run].
  pose proof (IH _ (reach_step _ _ _ Hg (step_accept t vk g))) as H.
  destruct (SetKbdHistoryIndex t vk g) as [g1 out1]. cbn [fst] in H.
  destruct (run events g1) as [g2 out2]. exact H.
Qed.

(** The defect behind the claims on cycles: the matcher leaves the cursor
    at 0 and the debouncer increments before it returns, so a key-down
    that follows a write to slot 3 within 500 ms goes to slot 1. *)
Lemma slot_after_matcher now vk now' g :
  fst (GetAvailableKbdHistoryIndex now g) = 3 ->
  Win32.wrap64 (now' - now) <= 500 ->
  fst (GetAvailableKbdHistoryIndex now' (fst (SetKbdHistoryIndex now vk g))) = 1.
Proof.
  intros Hi Hgap.
  rewrite GetAvailableKbdHistoryIndex_unfold.
  rewrite SetKbdHistoryIndex_last, SetKbdHistoryIndex_cursor, Hi. cbn.
  destruct (Z.gtb_spec (Win32.wrap64 (now' - now)) 500); [lia | reflexivity].
Qed.

(** ** The claims that hold *)

(** C1. A write to slot 3 that leaves the history equal to UP, DOWN, UP,
    DOWN toggles [lock_enabled] once ([!lock_enabled]), asks for one
    device toggle per entry of [g_TouchScreens], in order, with the enable
    flag the negation of the new lock state, and then for one sound with
    the same flag: locked disables the devices and plays the Off cue,
    unlocked enables them and plays the On cue. *)
Theorem C1_gesture_toggles_lock_devices_and_sound now vk g :
  fst (GetAvailableKbdHistoryIndex now g) = 3 ->
  Volume_Event_History (fst (SetKbdHistoryIndex now vk g)) = gesture ->
  let g' := fst (SetKbdHistoryIndex now vk g) in
  let out := snd (SetKbdHistoryIndex now vk g) in
  let enable := Win32.lnot (lock_enabled g') in
  lock_enabled g' = Z.b2z (Win32.lnot (lock_enabled g)) /\
  g_TouchScreens g' = g_TouchScreens g /\
  out = flat_map (fun screen => ToggleTouchDevice screen enable)
                 (g_TouchScreens g)
        ++ SoundEffect enable /\
  (lock_enabled g' <> 0 ->
   out = map (pnputil "/disable-device") (g_TouchScreens g)
         ++ [PlaySound "C:\Windows\Media\Speech Off.wav"]) /\
  (lock_enabled g' = 0 ->
   out = map (pnputil "/enable-device") (g_TouchScreens g)
         ++ [PlaySound "C:\Windows\Media\Speech On.wav"]).
Proof.
  intros Hi Hh. rewrite <- stored_history in Hh.
  assert (Hm : fst (CheckForVolumeUpDownUpDown (stored now vk g)) = true).
  { apply CheckForVolumeUpDownUpDown_spec; [rewrite Hh; reflexivity | exact Hh]. }
  rewrite SetKbdHistoryIndex_unfold, Hi, Hm. cbn [Z.eqb Pos.eqb].
  fields.
  assert (Hflat : forall b,
    flat_map (fun screen => ToggleTouchDevice screen b) (g_TouchScreens g) =
    map (pnputil (if b then "/enable-device" else "/disable-device"))
        (g_TouchScreens g)).
  { intros b. induction (g_TouchScreens g) as [| d ds IH]; [reflexivity |].
    cbn. now rewrite IH. }
  repeat split.
  - apply (GetAvailableKbdHistoryIndex_frame now g).
  - intros Hl. rewrite Hflat.
    destruct (Win32.lnot (lock_enabled g)); [reflexivity | now destruct Hl].
  - intros Hl. rewrite Hflat.
    destruct (Win32.lnot (lock_enabled g)); [discriminate Hl | reflexivity].
Qed.

(** C2. With a cursor that is a [WORD] and a clock that did not go back,
    the debouncer takes the elapsed time [now - Last_Volume_Event],
    records [now], sets the cursor to 0 when more than 500 ms elapsed and
    otherwise to cursor + 1 wrapped to 0 above 3, and returns that
    cursor; the key is written to the slot it returns. *)
Theorem C2_debouncer_follows_spec now vk g :
  well_typed g ->
  0 <= Last_Volume_Event g <= now ->
  now < Win32.DWORD64_range ->
  let elapsed := now - Last_Volume_Event g in
  let i := debouncer_spec_cursor elapsed (Current_Index g) in
  GetAvailableKbdHistoryIndex now g =
    (i, set_Current_Index i (set_Last_Volume_Event now g)) /\
  Volume_Event_History (fst (SetKbdHistoryIndex now vk g)) =
    <[Z.to_nat i := vk]> (Volume_Event_History g) /\
  Last_Volume_Event (fst (SetKbdHistoryIndex now vk g)) = now.
Proof.
  intros [_ Hc] Hlast Hnow elapsed i.
  assert (E : GetAvailableKbdHistoryIndex now g =
              (i, set_Current_Index i (set_Last_Volume_Event now g))).
  { rewrite GetAvailableKbdHistoryIndex_unfold. cbv zeta.
    assert (Hi : (if Win32.wrap64 (now - Last_Volume_Event g) >? 500 then 0
                  else if Win32.wrap16 (Current_Index g + 1) >? 3 then 0
                       else Win32.wrap16 (Current_Index g + 1)) = i).
    { subst i elapsed. unfold debouncer_spec_cursor, Win32.wrap64.
      rewrite Z.mod_small by lia.
      rewrite (wrap16_clamp _ Hc). reflexivity. }
    rewrite Hi. reflexivity. }
  split; [exact E |].
  rewrite SetKbdHistoryIndex_history, SetKbdHistoryIndex_last, E.
  split; reflexivity.
Qed.

(** C7. From the initial globals, after every run of the debouncer, of
    the matcher and of the whole key-down handler the cursor is between 0
    and 3. *)
Theorem C7_cursor_in_range screens g :
  reachable screens g -> 0 <= Current_Index g <= 3.
Proof.
  induction 1 as [| g g' _ _ Hstep].
  - cbn. lia.
  - destruct Hstep as [t g | g | t vk g].
    + rewrite GetAvailableKbdHistoryIndex_cursor.
      apply GetAvailableKbdHistoryIndex_range.
    + rewrite CheckForVolumeUpDownUpDown_globals. cbn. lia.
    + rewrite SetKbdHistoryIndex_cursor.
      pose proof (GetAvailableKbdHistoryIndex_range t g).
      destruct (_ =? 3); lia.
Qed.

(** C8. The matcher sets the cursor to 0 whatever it answers, and leaves
    the history, the time of the last event, the lock flag and the device
    list as they were. *)
Theorem C8_matcher_only_resets_cursor g :
  let g' := snd (CheckForVolumeUpDownUpDown g) in
  Current_Index g' = 0 /\
  Volume_Event_History g' = Volume_Event_History g /\
  Last_Volume_Event g' = Last_Volume_Event g /\
  lock_enabled g' = lock_enabled g /\
  g_TouchScreens g' = g_TouchScreens g.
Proof. cbv zeta. rewrite CheckForVolumeUpDownUpDown_globals. cbn. auto. Qed.

(** C9. A write to slot 3 that leaves the history different from UP,
    DOWN, UP, DOWN keeps [lock_enabled], issues no request and still
    sets the cursor to 0. *)
Theorem C9_no_match_only_resets_cursor now vk g :
  well_typed g ->
  fst (GetAvailableKbdHistoryIndex now g) = 3 ->
  Volume_Event_History (fst (SetKbdHistoryIndex now vk g)) <> gesture ->
  lock_enabled (fst (SetKbdHistoryIndex now vk g)) = lock_enabled g /\
  snd (SetKbdHistoryIndex now vk g) = [] /\
  Current_Index (fst (SetKbdHistoryIndex now vk g)) = 0.
Proof.
  intros [Hlen _] Hi Hh. rewrite <- stored_history in Hh.
  assert (Hm : fst (CheckForVolumeUpDownUpDown (stored now vk g)) = false).
  { apply not_true_is_false. intros Hm. apply Hh.
    apply CheckForVolumeUpDownUpDown_spec; [| exact Hm].
    rewrite stored_history, SetKbdHistoryIndex_history, length_insert.
    exact Hlen. }
  rewrite SetKbdHistoryIndex_unfold, Hi, Hm. cbn [Z.eqb Pos.eqb]. fields.
  repeat split. apply (GetAvailableKbdHistoryIndex_frame now g).
Qed.

(** C10. A key-down writes the slot the debouncer returned, one of the
    four, and every other slot keeps the value it had, whichever cycle
    wrote it. *)
Theorem C10_one_slot_written now vk g :
  well_typed g ->
  let i := Z.to_nat (fst (GetAvailableKbdHistoryIndex now g)) in
  let h' := Volume_Event_History (fst (SetKbdHistoryIndex now vk g)) in
  (i < 4)%nat /\
  length h' = 4%nat /\
  h' !! i = Some vk /\
  (forall j : nat, j <> i -> h' !! j = Volume_Event_History g !! j).
Proof.
  intros [Hlen _] i h'.
  assert (Hi : (i < 4)%nat).
  { subst i. pose proof (GetAvailableKbdHistoryIndex_range now g). lia. }
  subst h'. rewrite SetKbdHistoryIndex_history. fold i.
  split; [exact Hi |]. split; [now rewrite length_insert |]. split.
  - apply list_lookup_insert_eq. lia.
  - intros j Hj. apply list_lookup_insert_ne. congruence.
Qed.

End Properties.

(** * Concrete runs *)

(** The hypotheses of C1 hold for the fourth press of the gesture, and
    the lock goes from 0 to 1 with the devices disabled and the Off cue
    played. *)
Lemma C1_witness :
  fst (GetAvailableKbdHistoryIndex 1300 Sample.three_pressed) = 3 /\
  Volume_Event_History
    (fst (@SetKbdHistoryIndex windows_sdk 1300 Sample.DOWN Sample.three_pressed))
  = @gesture windows_sdk /\
  lock_enabled
    (fst (@SetKbdHistoryIndex windows_sdk 1300 Sample.DOWN Sample.three_pressed))
  = 1 /\
  snd (@SetKbdHistoryIndex windows_sdk 1300 Sample.DOWN Sample.three_pressed)
  = [pnputil "/disable-device" "HID\touch0";
     pnputil "/disable-device" "HID\touch1";
     PlaySound "C:\Windows\Media\Speech Off.wav"].
Proof.
  assert (H1 : fst (GetAvailableKbdHistoryIndex 1300 Sample.three_pressed) = 3)
    by reflexivity.
  assert (H2 : Volume_Event_History
                 (fst (@SetKbdHistoryIndex windows_sdk 1300 Sample.DOWN
                         Sample.three_pressed)) = @gesture windows_sdk)
    by reflexivity.
  destruct (C1_gesture_toggles_lock_devices_and_sound
              (W := windows_sdk) 1300 Sample.DOWN Sample.three_pressed H1 H2)
    as (Hlock & _ & _ & Hoff & _).
  split; [exact H1 |]. split; [exact H2 |]. split; [exact Hlock |].
  apply Hoff. rewrite Hlock. discriminate.
Defined.

(** The hypotheses of C2 hold for the fourth press of the gesture, which
    the debouncer sends to slot 3. *)
Lemma C2_witness :
  well_typed Sample.three_pressed /\
  0 <= Last_Volume_Event Sample.three_pressed <= 1300 /\
  1300 < Win32.DWORD64_range /\
  GetAvailableKbdHistoryIndex 1300 Sample.three_pressed =
    (3, set_Current_Index 3 (set_Last_Volume_Event 1300 Sample.three_pressed)) /\
  Volume_Event_History
    (fst (@SetKbdHistoryIndex windows_sdk 1300 Sample.DOWN Sample.three_pressed))
  = <[3%nat := Sample.DOWN]> (Volume_Event_History Sample.three_pressed) /\
  Last_Volume_Event
    (fst (@SetKbdHistoryIndex windows_sdk 1300 Sample.DOWN Sample.three_pressed))
  = 1300.
Proof.
  assert (H1 : well_typed Sample.three_pressed).
  { split; [reflexivity |]. vm_compute. split; [discriminate | reflexivity]. }
  assert (H2 : 0 <= Last_Volume_Event Sample.three_pressed <= 1300).
  { vm_compute. split; discriminate. }
  assert (H3 : 1300 < Win32.DWORD64_range) by reflexivity.
  split; [exact H1 |]. split; [exact H2 |]. split; [exact H3 |].
  exact (C2_debouncer_follows_spec
           (W := windows_sdk) 1300 Sample.DOWN Sample.three_pressed H1 H2 H3).
Defined.

(** The globals after the gesture are reachable, so C7 bounds their
    cursor. *)
Lemma C7_witness :
  reachable (W := windows_sdk) Sample.screens
    (fst (@run windows_sdk Sample.one_gesture (initial_globals Sample.screens)))
  /\
  0 <= Current_Index
         (fst (@run windows_sdk Sample.one_gesture
                 (initial_globals Sample.screens))) <= 3.
Proof.
  assert (H : reachable (W := windows_sdk) Sample.screens
                (fst (@run windows_sdk Sample.one_gesture
                        (initial_globals Sample.screens)))).
  { apply reachable_run. apply reach_initial. }
  split; [exact H |].
  exact (C7_cursor_in_range (W := windows_sdk) Sample.screens _ H).
Defined.

(** The hypotheses of C9 hold for an UP pressed after UP, DOWN, DOWN. *)
Lemma C9_witness :
  well_typed Sample.three_wrong /\
  fst (GetAvailableKbdHistoryIndex 1300 Sample.three_wrong) = 3 /\
  Volume_Event_History
    (fst (@SetKbdHistoryIndex windows_sdk 1300 Sample.UP Sample.three_wrong))
  <> @gesture windows_sdk /\
  lock_enabled
    (fst (@SetKbdHistoryIndex windows_sdk 1300 Sample.UP Sample.three_wrong))
  = lock_enabled Sample.three_wrong /\
  snd (@SetKbdHistoryIndex windows_sdk 1300 Sample.UP Sample.three_wrong) = [] /\
  Current_Index
    (fst (@SetKbdHistoryIndex windows_sdk 1300 Sample.UP Sample.three_wrong))
  = 0.
Proof.
  assert (H1 : well_typed Sample.three_wrong).
  { split; [reflexivity |]. vm_compute. split; [discriminate | reflexivity]. }
  assert (H2 : fst (GetAvailableKbdHistoryIndex 1300 Sample.three_wrong) = 3)
    by reflexivity.
  assert (H3 : Volume_Event_History
                 (fst (@SetKbdHistoryIndex windows_sdk 1300 Sample.UP
                         Sample.three_wrong)) <> @gesture windows_sdk).
  { vm_compute. discriminate. }
  split; [exact H1 |]. split; [exact H2 |]. split; [exact H3 |].
  exact (C9_no_match_only_resets_cursor
           (W := windows_sdk) 1300 Sample.UP Sample.three_wrong H1 H2 H3).
Defined.

(** C10 at the press that follows the gesture within 500 ms: it goes to
    slot 1 and the other three slots keep the tags of the gesture. *)
Lemma C10_witness :
  well_typed
    (fst (@run windows_sdk Sample.one_gesture (initial_globals Sample.screens)))
  /\
  Volume_Event_History
    (fst (@run windows_sdk (Sample.one_gesture ++ [(1400, Sample.UP)])
            (initial_globals Sample.screens))) !! 1%nat = Some Sample.UP /\
  forall j : nat, j <> 1%nat ->
    Volume_Event_History
      (fst (@run windows_sdk (Sample.one_gesture ++ [(1400, Sample.UP)])
              (initial_globals Sample.screens))) !! j =
    Volume_Event_History
      (fst (@run windows_sdk Sample.one_gesture
              (initial_globals Sample.screens))) !! j.
Proof.
  assert (H : well_typed
                (fst (@run windows_sdk Sample.one_gesture
                        (initial_globals Sample.screens)))).
  { split; [reflexivity |]. vm_compute. split; [discriminate | reflexivity]. }
  destruct (C10_one_slot_written (W := windows_sdk) 1400 Sample.UP _ H)
    as (_ & _ & Hi & Hj).
  split; [exact H |]. split; [exact Hi | exact Hj].
Defined.

(** ** Where the code leaves the specification

    All four runs below show one defect: [CheckForVolumeUpDownUpDown]
    sets [Current_Index] to 0 and [GetAvailableKbdHistoryIndex] increments
    it before returning it, so the key-down that follows a write to slot 3
    within 500 ms is stored in slot 1 ([slot_after_matcher]) and slot 0
    keeps the tag of an earlier cycle. *)

(** C3. A press 100 ms after the gesture completed is written to slot 1,
    not to slot 0: the slots of the five presses are 0, 1, 2, 3, 1 and the
    history goes from UP, DOWN, UP, DOWN to UP, UP, UP, DOWN. *)
Theorem C3_press_after_matcher_goes_to_slot_1 :
  @slots windows_sdk (Sample.one_gesture ++ [(1400, Sample.UP)])
    (initial_globals Sample.screens) = [0; 1; 2; 3; 1] /\
  Volume_Event_History
    (fst (@run windows_sdk Sample.one_gesture (initial_globals Sample.screens)))
  = [Sample.UP; Sample.DOWN; Sample.UP; Sample.DOWN] /\
  Volume_Event_History
    (fst (@run windows_sdk (Sample.one_gesture ++ [(1400, Sample.UP)])
            (initial_globals Sample.screens)))
  = [Sample.UP; Sample.UP; Sample.UP; Sample.DOWN].
Proof. repeat split; vm_compute; reflexivity. Qed.

(** C4. UP four times and then DOWN, UP, DOWN, 400 ms apart: the seventh
    press toggles the lock although the UP in slot 0 is the first press,
    2400 ms older and separated from the others by three presses. *)
Theorem C4_stale_slot_0_completes_gesture :
  @slots windows_sdk Sample.slow_seven (initial_globals Sample.screens)
  = [0; 1; 2; 3; 1; 2; 3] /\
  lock_enabled
    (fst (@run windows_sdk (firstn 6 Sample.slow_seven)
            (initial_globals Sample.screens))) = 0 /\
  lock_enabled
    (fst (@run windows_sdk Sample.slow_seven
            (initial_globals Sample.screens))) = 1 /\
  Volume_Event_History
    (fst (@run windows_sdk Sample.slow_seven (initial_globals Sample.screens)))
  = @gesture windows_sdk.
Proof. repeat split; vm_compute; reflexivity. Qed.

(** C5. After the gesture the matcher has set the cursor to 0; DOWN, UP,
    DOWN, 100 ms apart, then reach slot 3 with the third press, the
    matcher runs and the lock toggles a second time. *)
Theorem C5_three_presses_after_reset_reach_matcher :
  Current_Index
    (fst (@run windows_sdk Sample.one_gesture (initial_globals Sample.screens)))
  = 0 /\
  @slots windows_sdk Sample.gesture_then_three (initial_globals Sample.screens)
  = [0; 1; 2; 3; 1; 2; 3] /\
  @run windows_sdk Sample.gesture_then_three (initial_globals Sample.screens)
  = ({| Volume_Event_History := [Sample.UP; Sample.DOWN; Sample.UP; Sample.DOWN];
        Current_Index := 0;
        Last_Volume_Event := 1600;
        lock_enabled := 0;
        g_TouchScreens := Sample.screens |},
     [pnputil "/disable-device" "HID\touch0";
      pnputil "/disable-device" "HID\touch1";
      PlaySound "C:\Windows\Media\Speech Off.wav";
      pnputil "/enable-device" "HID\touch0";
      pnputil "/enable-device" "HID\touch1";
      PlaySound "C:\Windows\Media\Speech On.wav"]).
Proof. repeat split; vm_compute; reflexivity. Qed.

(** With a pause of more than 500 ms before the fifth press the second
    gesture starts at slot 0 and the lock is toggled twice. *)
Example double_gesture_with_pause :
  @run windows_sdk
    (Sample.one_gesture ++
     [(1900, Sample.UP); (2000, Sample.DOWN); (2100, Sample.UP);
      (2200, Sample.DOWN)])
    (initial_globals Sample.screens)
  = ({| Volume_Event_History := [Sample.UP; Sample.DOWN; Sample.UP; Sample.DOWN];
        Current_Index := 0;
        Last_Volume_Event := 2200;
        lock_enabled := 0;
        g_TouchScreens := Sample.screens |},
     [pnputil "/disable-device" "HID\touch0";
      pnputil "/disable-device" "HID\touch1";
      PlaySound "C:\Windows\Media\Speech Off.wav";
      pnputil "/enable-device" "HID\touch0";
      pnputil "/enable-device" "HID\touch1";
      PlaySound "C:\Windows\Media\Speech On.wav"]).
Proof. vm_compute. reflexivity. Qed.

(** C6. The gesture twice in a row from power-up, the eight presses
    100 ms apart, toggles the lock once: it ends locked, with one round
    of requests. The second gesture is stored in slots 1, 2, 3, 1. *)
Theorem C6_double_gesture_toggles_once :
  @slots windows_sdk Sample.double_gesture (initial_globals Sample.screens)
  = [0; 1; 2; 3; 1; 2; 3; 1] /\
  @run windows_sdk Sample.double_gesture (initial_globals Sample.screens)
  = ({| Volume_Event_History := [Sample.UP; Sample.DOWN; Sample.DOWN; Sample.UP];
        Current_Index := 1;
        Last_Volume_Event := 1700;
        lock_enabled := 1;
        g_TouchScreens := Sample.screens |},
     [pnputil "/disable-device" "HID\touch0";
      pnputil "/disable-device" "HID\touch1";
      PlaySound "C:\Windows\Media\Speech Off.wav"]).
Proof. split; vm_compute; reflexivity. Qed.

(** * Further properties of the gesture detector *)

Section Detector.

Context {W : winuser}.

Implicit Types (g : globals) (now vk : Z).

Ltac fields :=
  cbn [fst snd stored
       Volume_Event_History Current_Index Last_Volume_Event lock_enabled
       g_TouchScreens set_Volume_Event_History set_Current_Index
       set_Last_Volume_Event set_lock_enabled].

(** More than 500 ms after the last key-down the debouncer answers
    slot 0. *)
Lemma paused_slot now g :
  Win32.wrap64 (now - Last_Volume_Event g) > 500 ->
  GetAvailableKbdHistoryIndex now g =
  (0, set_Current_Index 0 (set_Last_Volume_Event now g)).
Proof.
  intros Hgap. rewrite GetAvailableKbdHistoryIndex_unfold. cbv zeta.
  destruct (Z.gtb_spec (Win32.wrap64 (now - Last_Volume_Event g)) 500);
    [reflexivity | lia].
Qed.

(** Within 500 ms, and with the cursor below 3, it answers the next
    slot. *)
Lemma quick_slot now g :
  Win32.wrap64 (now - Last_Volume_Event g) <= 500 ->
  0 <= Current_Index g <= 2 ->
  GetAvailableKbdHistoryIndex now g =
  (Current_Index g + 1,
   set_Current_Index (Current_Index g + 1) (set_Last_Volume_Event now g)).
Proof.
  intros Hgap Hc. rewrite GetAvailableKbdHistoryIndex_unfold. cbv zeta.
  destruct (Z.gtb_spec (Win32.wrap64 (now - Last_Volume_Event g)) 500);
    [lia |].
  assert (Hw : Win32.wrap16 (Current_Index g + 1) = Current_Index g + 1).
  { unfold Win32.wrap16, Win32.WORD_range. apply Z.mod_small. lia. }
  rewrite Hw.
  destruct (Z.gtb_spec (Current_Index g + 1) 3); [lia | reflexivity].
Qed.

(** A key-down that is not stored in slot 3 only stores. *)
Lemma SetKbdHistoryIndex_below_3 now vk g :
  fst (GetAvailableKbdHistoryIndex now g) <> 3 ->
  SetKbdHistoryIndex now vk g = (stored now vk g, []).
Proof.
  intros Hi. rewrite SetKbdHistoryIndex_unfold.
  destruct (Z.eqb_spec (fst (GetAvailableKbdHistoryIndex now g)) 3);
    [contradiction | reflexivity].
Qed.

Lemma SetKbdHistoryIndex_paused now vk g :
  Win32.wrap64 (now - Last_Volume_Event g) > 500 ->
  SetKbdHistoryIndex now vk g =
  (set_Volume_Event_History (<[0%nat := vk]> (Volume_Event_History g))
     (set_Current_Index 0 (set_Last_Volume_Event now g)), []).
Proof.
  intros Hgap. pose proof (paused_slot now g Hgap) as E.
  rewrite SetKbdHistoryIndex_below_3 by (rewrite E; discriminate).
  unfold stored. rewrite E. reflexivity.
Qed.

Lemma SetKbdHistoryIndex_quick now vk g :
  Win32.wrap64 (now - Last_Volume_Event g) <= 500 ->
  0 <= Current_Index g <= 1 ->
  SetKbdHistoryIndex now vk g =
  (set_Volume_Event_History
     (<[Z.to_nat (Current_Index g + 1) := vk]> (Volume_Event_History g))
     (set_Current_Index (Current_Index g + 1) (set_Last_Volume_Event now g)),
   []).
Proof.
  intros Hgap Hc.
  assert (E := quick_slot now g Hgap ltac:(lia)).
  rewrite SetKbdHistoryIndex_below_3 by (rewrite E; cbn [fst]; lia).
  unfold stored. rewrite E. reflexivity.
Qed.

(** What one key-down can do to the lock and the outside: nothing, or
    one round with the flag that undoes the state the lock had. *)
Lemma SetKbdHistoryIndex_cases now vk g :
  g_TouchScreens (fst (SetKbdHistoryIndex now vk g)) = g_TouchScreens g /\
  ((snd (SetKbdHistoryIndex now vk g) = [] /\
    lock_enabled (fst (SetKbdHistoryIndex now vk g)) = lock_enabled g)
   \/
   (snd (SetKbdHistoryIndex now vk g) =
      round (g_TouchScreens g) (negb (Win32.lnot (lock_enabled g))) /\
    lock_enabled (fst (SetKbdHistoryIndex now vk g)) =
      Z.b2z (Win32.lnot (lock_enabled g)) /\
    fst (GetAvailableKbdHistoryIndex now g) = 3 /\
    fst (CheckForVolumeUpDownUpDown (stored now vk g)) = true)).
Proof.
  pose proof (GetAvailableKbdHistoryIndex_frame now g) as (_ & _ & Hl & Hs).
  rewrite SetKbdHistoryIndex_unfold.
  destruct (Z.eqb_spec (fst (GetAvailableKbdHistoryIndex now g)) 3) as [Hi | Hi].
  - destruct (fst (CheckForVolumeUpDownUpDown (stored now vk g))) eqn:Hm.
    + cbv zeta. fields. split; [exact Hs |]. right.
      repeat split; [| exact Hi].
      unfold round. now destruct (Win32.lnot (lock_enabled g)).
    + fields. split; [exact Hs |]. left. split; [reflexivity | exact Hl].
  - fields. split; [exact Hs |]. left. split; [reflexivity | exact Hl].
Qed.

(** A write to slot 3 comes within 500 ms of the last key-down and
    from cursor 2. *)
Lemma slot_3_inv now g :
  0 <= Current_Index g < Win32.WORD_range ->
  fst (GetAvailableKbdHistoryIndex now g) = 3 ->
  Win32.wrap64 (now - Last_Volume_Event g) <= 500 /\ Current_Index g = 2.
Proof.
  intros Hc. rewrite GetAvailableKbdHistoryIndex_unfold. cbv zeta. cbn [fst].
  rewrite (wrap16_clamp _ Hc).
  destruct (Z.gtb_spec (Win32.wrap64 (now - Last_Volume_Event g)) 500);
    [discriminate |].
  destruct (Z.gtb_spec (Current_Index g + 1) 3); [discriminate | lia].
Qed.

Lemma run_cons now vk events g :
  run ((now, vk) :: events) g =
  (fst (run events (fst (SetKbdHistoryIndex now vk g))),
   snd (SetKbdHistoryIndex now vk g)
   ++ snd (run events (fst (SetKbdHistoryIndex now vk g)))).
Proof.
  cbn [run]. destruct (SetKbdHistoryIndex now vk g) as [g1 out1].
  cbn [fst snd]. destruct (run events g1) as [g2 out2]. reflexivity.
Qed.

(** X1. A key-down more than 500 ms after the last one is stored in
    slot 0 whatever the cursor was; it leaves the cursor at 0, keeps the
    lock and asks nothing of the outside. *)
Theorem X1_press_after_pause_restarts now vk g :
  Win32.wrap64 (now - Last_Volume_Event g) > 500 ->
  fst (GetAvailableKbdHistoryIndex now g) = 0 /\
  Volume_Event_History (fst (SetKbdHistoryIndex now vk g)) =
    <[0%nat := vk]> (Volume_Event_History g) /\
  Current_Index (fst (SetKbdHistoryIndex now vk g)) = 0 /\
  lock_enabled (fst (SetKbdHistoryIndex now vk g)) = lock_enabled g /\
  snd (SetKbdHistoryIndex now vk g) = [].
Proof.
  intros Hgap. rewrite (SetKbdHistoryIndex_paused now vk g Hgap).
  rewrite (paused_slot now g Hgap). fields. auto.
Qed.

(** X2. A tick count below the recorded one (a clock that went back)
    wraps around in the unsigned subtraction and counts as a pause: the
    key-down goes to slot 0 and nothing is requested. *)
Theorem X2_clock_gone_back_counts_as_pause now vk g :
  0 <= now < Last_Volume_Event g ->
  Last_Volume_Event g < Win32.DWORD64_range ->
  Last_Volume_Event g - now < Win32.DWORD64_range - 500 ->
  fst (GetAvailableKbdHistoryIndex now g) = 0 /\
  snd (SetKbdHistoryIndex now vk g) = [] /\
  Last_Volume_Event (fst (SetKbdHistoryIndex now vk g)) = now.
Proof.
  intros Hnow Hlast Hdiff.
  assert (Hgap : Win32.wrap64 (now - Last_Volume_Event g) > 500).
  { unfold Win32.wrap64, Win32.DWORD64_range in *.
    rewrite <- (Z.mod_unique (now - Last_Volume_Event g) (2 ^ 64) (-1)
                  (now - Last_Volume_Event g + 2 ^ 64)) by lia.
    lia. }
  rewrite (SetKbdHistoryIndex_paused now vk g Hgap).
  rewrite (paused_slot now g Hgap). fields. auto.
Qed.

(** X3. A key-down that asks anything of the outside is a
    [VK_VOLUME_DOWN] that comes within 500 ms of the last key-down, with
    the cursor at 2 and UP, DOWN, UP already in slots 0 to 2. *)
Theorem X3_only_a_quick_volume_down_toggles now vk g :
  well_typed g ->
  snd (SetKbdHistoryIndex now vk g) <> [] ->
  vk = VK_VOLUME_DOWN /\
  Win32.wrap64 (now - Last_Volume_Event g) <= 500 /\
  Current_Index g = 2 /\
  Volume_Event_History g !! 0%nat = Some VK_VOLUME_UP /\
  Volume_Event_History g !! 1%nat = Some VK_VOLUME_DOWN /\
  Volume_Event_History g !! 2%nat = Some VK_VOLUME_UP.
Proof.
  intros [Hlen Hc] Hout.
  destruct (SetKbdHistoryIndex_cases now vk g) as [_ [[Hnil _] | (_ & _ & Hi & Hm)]];
    [contradiction |].
  destruct (slot_3_inv now g Hc Hi) as [Hgap Hcur].
  assert (Hh : Volume_Event_History (stored now vk g) =
               <[3%nat := vk]> (Volume_Event_History g)).
  { rewrite stored_history, SetKbdHistoryIndex_history, Hi. reflexivity. }
  apply CheckForVolumeUpDownUpDown_spec in Hm;
    [| rewrite Hh, length_insert; exact Hlen].
  rewrite Hh in Hm. unfold gesture in Hm.
  destruct (Volume_Event_History g) as [|a [|b [|c [|d [|e h]]]]];
    try discriminate Hlen.
  cbn in Hm. injection Hm as -> -> -> ->.
  split; [reflexivity |]. split; [exact Hgap |]. split; [exact Hcur |].
  repeat split.
Qed.

(** X4. From the initial globals, the debouncer, the matcher and the
    key-down handler keep the history at four slots and the cursor a
    [WORD], keep the lock flag at 0 or 1, and never change the device
    list. *)
Theorem X4_globals_stay_well_formed screens g :
  reachable screens g ->
  well_typed g /\
  (lock_enabled g = 0 \/ lock_enabled g = 1) /\
  g_TouchScreens g = screens.
Proof.
  induction 1 as [| g g' _ (Hwt & Hlock & Hscr) Hstep].
  - split; [split; [reflexivity | cbn; unfold Win32.WORD_range; lia] |].
    split; [left; reflexivity | reflexivity].
  - destruct Hstep as [t g | g | t vk g].
    + pose proof (GetAvailableKbdHistoryIndex_frame t g) as (Hh & _ & Hl & Hs).
      pose proof (GetAvailableKbdHistoryIndex_range t g) as Hr.
      rewrite <- GetAvailableKbdHistoryIndex_cursor in Hr.
      split; [| rewrite Hl, Hs; auto].
      split; [rewrite Hh; apply Hwt | unfold Win32.WORD_range; lia].
    + rewrite CheckForVolumeUpDownUpDown_globals. fields.
      split; [| auto].
      split; [apply Hwt | fields; unfold Win32.WORD_range; lia].
    + split; [now apply well_typed_SetKbdHistoryIndex |].
      destruct (SetKbdHistoryIndex_cases t vk g) as [Hs [[_ Hl] | (_ & Hl & _)]];
        rewrite Hs, Hl; split; auto.
      destruct (Win32.lnot (lock_enabled g)); cbn; auto.
Qed.

(** X5. After any key-down the cursor is at most 2, so the next
    key-down goes to slot 0 after a pause and to cursor + 1 otherwise:
    the clamp of a cursor above 3 is not reached again. *)
Theorem X5_cursor_at_most_2_after_key_down now vk g :
  0 <= Current_Index (fst (SetKbdHistoryIndex now vk g)) <= 2 /\
  forall now',
    fst (GetAvailableKbdHistoryIndex now' (fst (SetKbdHistoryIndex now vk g))) =
    if Win32.wrap64 (now' - now) >? 500 then 0
    else Current_Index (fst (SetKbdHistoryIndex now vk g)) + 1.
Proof.
  assert (Hc : 0 <= Current_Index (fst (SetKbdHistoryIndex now vk g)) <= 2).
  { rewrite SetKbdHistoryIndex_cursor.
    pose proof (GetAvailableKbdHistoryIndex_range now g).
    destruct (Z.eqb_spec (fst (GetAvailableKbdHistoryIndex now g)) 3); lia. }
  split; [exact Hc |]. intros now'.
  pose proof (SetKbdHistoryIndex_last now vk g) as Hlast.
  destruct (Z.gtb_spec (Win32.wrap64 (now' - now)) 500) as [Hgap | Hgap].
  - rewrite paused_slot by (rewrite Hlast; lia). reflexivity.
  - rewrite quick_slot by (rewrite ?Hlast; lia). reflexivity.
Qed.

Lemma run_rounds events : forall g,
  exists n : nat,
    snd (run events g) =
      rounds (g_TouchScreens g) (negb (Win32.lnot (lock_enabled g))) n /\
    Win32.lnot (lock_enabled (fst (run events g))) =
      Nat.iter n negb (Win32.lnot (lock_enabled g)) /\
    g_TouchScreens (fst (run events g)) = g_TouchScreens g.
Proof.
  induction events as [| [t vk] events IH]; intros g.
  - exists 0%nat. cbn. auto.
  - rewrite run_cons. cbn [fst snd].
    destruct (IH (fst (SetKbdHistoryIndex t vk g))) as (n & Hout & Hlock & Hscr).
    destruct (SetKbdHistoryIndex_cases t vk g) as [Hs [[Hnil Hl] | (Hround & Hl & _)]].
    + exists n. rewrite Hnil, Hout, Hlock, Hscr, Hs, Hl. auto.
    + exists (S n). rewrite Hround, Hout, Hlock, Hscr, Hs, Hl.
      assert (Hneg : Win32.lnot (Z.b2z (Win32.lnot (lock_enabled g))) =
                     negb (Win32.lnot (lock_enabled g)))
        by now destruct (Win32.lnot (lock_enabled g)).
      rewrite Hneg, negb_involutive. repeat split.
      * cbn [rounds]. now rewrite negb_involutive.
      * symmetry. apply Nat.iter_succ_r.
Qed.

(** X6. Whatever the key-downs, the requests are rounds (every device of
    the list, then one sound) whose flag alternates, the first undoing
    the state the lock had; the lock ends negated once per round and the
    device list is unchanged. *)
Theorem X6_requests_are_alternating_rounds events g :
  exists n : nat,
    snd (run events g) =
      rounds (g_TouchScreens g) (negb (Win32.lnot (lock_enabled g))) n /\
    Win32.lnot (lock_enabled (fst (run events g))) =
      Nat.iter n negb (Win32.lnot (lock_enabled g)) /\
    g_TouchScreens (fst (run events g)) = g_TouchScreens g.
Proof. apply run_rounds. Qed.

(** The fourth key-down of a gesture: from cursor 2, within 500 ms, and
    completing the pattern. *)
Lemma SetKbdHistoryIndex_fourth now vk g :
  Win32.wrap64 (now - Last_Volume_Event g) <= 500 ->
  Current_Index g = 2 ->
  <[3%nat := vk]> (Volume_Event_History g) = gesture ->
  SetKbdHistoryIndex now vk g =
  ({| Volume_Event_History := gesture;
      Current_Index := 0;
      Last_Volume_Event := now;
      lock_enabled := Z.b2z (Win32.lnot (lock_enabled g));
      g_TouchScreens := g_TouchScreens g |},
   round (g_TouchScreens g) (negb (Win32.lnot (lock_enabled g)))).
Proof.
  intros Hgap Hc Hh.
  assert (E := quick_slot now g Hgap ltac:(lia)). rewrite Hc in E.
  change (2 + 1) with 3 in E.
  assert (Hs : stored now vk g =
               set_Volume_Event_History gesture
                 (set_Current_Index 3 (set_Last_Volume_Event now g))).
  { unfold stored. rewrite E. fields. change (Z.to_nat 3) with 3%nat.
    now rewrite Hh. }
  assert (Hm : fst (CheckForVolumeUpDownUpDown (stored now vk g)) = true).
  { apply CheckForVolumeUpDownUpDown_spec; rewrite Hs; reflexivity. }
  rewrite SetKbdHistoryIndex_unfold, E, Hm, Hs. cbn [fst Z.eqb Pos.eqb].
  cbv zeta. unfold round.
  now destruct (Win32.lnot (lock_enabled g)).
Qed.

(** X7. From any globals with a four-slot history, UP after a pause of
    more than 500 ms and then DOWN, UP, DOWN, each within 500 ms of the
    key-down before it, toggle the lock once and cause one round of
    requests; the history is then the gesture and the cursor 0. *)
Theorem X7_gesture_after_pause_toggles_once t1 t2 t3 t4 g :
  length (Volume_Event_History g) = 4%nat ->
  Win32.wrap64 (t1 - Last_Volume_Event g) > 500 ->
  Win32.wrap64 (t2 - t1) <= 500 ->
  Win32.wrap64 (t3 - t2) <= 500 ->
  Win32.wrap64 (t4 - t3) <= 500 ->
  run [(t1, VK_VOLUME_UP); (t2, VK_VOLUME_DOWN);
       (t3, VK_VOLUME_UP); (t4, VK_VOLUME_DOWN)] g =
  ({| Volume_Event_History := gesture;
      Current_Index := 0;
      Last_Volume_Event := t4;
      lock_enabled := Z.b2z (Win32.lnot (lock_enabled g));
      g_TouchScreens := g_TouchScreens g |},
   round (g_TouchScreens g) (negb (Win32.lnot (lock_enabled g)))).
Proof.
  intros Hlen H1 H2 H3 H4.
  destruct (Volume_Event_History g) as [|a [|b [|c [|d [|e h]]]]] eqn:Hh;
    try discriminate Hlen.
  rewrite run_cons, (SetKbdHistoryIndex_paused _ _ _ H1). fields.
  rewrite run_cons, SetKbdHistoryIndex_quick by (fields; lia). fields.
  rewrite run_cons, SetKbdHistoryIndex_quick by (fields; lia). fields.
  rewrite run_cons, SetKbdHistoryIndex_fourth;
    [| fields; exact H4 | fields; reflexivity | fields; rewrite Hh; reflexivity].
  fields. cbn [run fst snd]. rewrite app_nil_r. reflexivity.
Qed.

(** X8. Key-downs that each come more than 500 ms after the one before
    never toggle: nothing is requested, the lock is kept, and slots 1
    to 3 of the history are untouched. *)
Theorem X8_slow_key_downs_never_toggle events : forall g,
  paused_throughout (Last_Volume_Event g) events = true ->
  snd (run events g) = [] /\
  lock_enabled (fst (run events g)) = lock_enabled g /\
  forall j : nat, j <> 0%nat ->
    Volume_Event_History (fst (run events g)) !! j =
    Volume_Event_History g !! j.
Proof.
  induction events as [| [t vk] events IH]; intros g Hp.
  - cbn. auto.
  - cbn [paused_throughout] in Hp. apply andb_true_iff in Hp as [Hgap Hp].
    apply Z.gtb_lt in Hgap. apply Z.lt_gt in Hgap.
    rewrite run_cons, (SetKbdHistoryIndex_paused _ vk _ Hgap). fields.
    destruct (IH (set_Volume_Event_History
                    (<[0%nat := vk]> (Volume_Event_History g))
                    (set_Current_Index 0 (set_Last_Volume_Event t g))) Hp)
      as (Hout & Hl & Hh).
    rewrite Hout, Hl. fields. repeat split.
    intros j Hj. rewrite (Hh j Hj). fields.
    apply list_lookup_insert_ne. congruence.
Qed.

End Detector.

(** * The window procedure and the message loop *)

Section DriverProperties.

Context {W : winuser} {I : winuser_input}.

Lemma pWndProc_volume_key_down t m g :
  pWndProc t m g =
  if volume_key_down m then SetKbdHistoryIndex t (VKey m) g else (g, []).
Proof.
  unfold pWndProc, volume_key_down.
  destruct (uMsg m =? WM_INPUT); [| reflexivity].
  destruct (dwSize m >? 0); reflexivity.
Qed.

Lemma InputEventThread_run messages : forall g,
  InputEventThread messages g = run (volume_key_downs messages) g.
Proof.
  induction messages as [| [t m] messages IH]; intros g; [reflexivity |].
  cbn [InputEventThread volume_key_downs].
  rewrite pWndProc_volume_key_down.
  destruct (volume_key_down m).
  - cbn [run]. destruct (SetKbdHistoryIndex t (VKey m) g) as [g1 out1].
    now rewrite IH.
  - rewrite IH. now destruct (run (volume_key_downs messages) g).
Qed.

Lemma volume_key_downs_tags messages :
  Forall (fun e : Z * Z => volume_tag (snd e)) (volume_key_downs messages).
Proof.
  induction messages as [| [t m] messages IH]; [constructor |].
  cbn [volume_key_downs]. destruct (volume_key_down m) eqn:Hm; [| exact IH].
  constructor; [| exact IH]. cbn [snd].
  unfold volume_key_down in Hm.
  apply andb_true_iff in Hm as [_ Hm]. apply orb_true_iff in Hm.
  unfold volume_tag. rewrite !Z.eqb_eq in Hm. tauto.
Qed.

Lemma run_tags events : forall g,
  Forall (fun e : Z * Z => volume_tag (snd e)) events ->
  Forall volume_tag (Volume_Event_History g) ->
  Forall volume_tag (Volume_Event_History (fst (run events g))).
Proof.
  induction events as [| [t vk] events IH]; intros g He Hg; [exact Hg |].
  rewrite run_cons. cbn [fst].
  apply Forall_cons in He as [Hvk He]. apply IH; [exact He |].
  rewrite SetKbdHistoryIndex_history. now apply Forall_insert.
Qed.

(** X9. The message loop does to the globals and asks of the outside
    exactly what the key-down handler does on the volume key-downs among
    the messages, taken in order with their tick counts; every other
    message is skipped without a trace. *)
Theorem X9_message_loop_runs_the_volume_key_downs messages g :
  InputEventThread messages g = run (volume_key_downs messages) g.
Proof. apply InputEventThread_run. Qed.

(** X10. A message that is not [WM_INPUT], carries no data, is not from
    a keyboard, is not a key-down or is a key-down of another key leaves
    every global as it was, the time of the last event included, and
    asks nothing of the outside. *)
Theorem X10_other_messages_are_ignored t m g :
  uMsg m <> WM_INPUT \/ dwSize m <= 0 \/ copied m <> dwSize m \/
  dwType m <> RIM_TYPEKEYBOARD \/ Message m <> WM_KEYDOWN \/
  (VKey m <> VK_VOLUME_UP /\ VKey m <> VK_VOLUME_DOWN) ->
  pWndProc t m g = (g, []).
Proof.
  intros Hm. unfold pWndProc.
  destruct (Z.eqb_spec (uMsg m) WM_INPUT); [| reflexivity].
  destruct (Z.gtb_spec (dwSize m) 0); [| reflexivity].
  destruct (Z.eqb_spec (copied m) (dwSize m)); [| reflexivity].
  destruct (Z.eqb_spec (dwType m) RIM_TYPEKEYBOARD); [| reflexivity].
  destruct (Z.eqb_spec (Message m) WM_KEYDOWN); [| reflexivity].
  destruct (Z.eqb_spec (VKey m) VK_VOLUME_UP);
    destruct (Z.eqb_spec (VKey m) VK_VOLUME_DOWN); cbn [andb orb];
    try reflexivity; exfalso; intuition lia.
Qed.

(** X11. Whatever messages arrive, every slot of the history holds 0,
    [VK_VOLUME_UP] or [VK_VOLUME_DOWN]. *)
Theorem X11_history_holds_only_volume_tags screens messages :
  Forall volume_tag
    (Volume_Event_History
       (fst (InputEventThread messages (initial_globals screens)))).
Proof.
  rewrite InputEventThread_run.
  apply run_tags; [apply volume_key_downs_tags |].
  cbn. repeat constructor.
Qed.

End DriverProperties.

(** * Enumerating the touch screens *)

Section EnumerationProperties.

Context {H : hidusage}.

(** One turn of the loop adds the id of a registered interface and
    changes nothing else. *)
Lemma GetTouchScreens_body_globals i d g :
  fst (GetTouchScreens_body i d g) =
  if registered d then
    {| Volume_Event_History := Volume_Event_History g;
       Current_Index := Current_Index g;
       Last_Volume_Event := Last_Volume_Event g;
       lock_enabled := lock_enabled g;
       g_TouchScreens := g_TouchScreens g ++ [deviceId d] |}
  else g.
Proof.
  unfold GetTouchScreens_body, registered.
  destruct (detailData d), (detail_read d), (deviceHandle d) as [h |],
    (preparsed_read d), (touch_screen_caps d); reflexivity.
Qed.

Lemma GetTouchScreens_body_closed i d g :
  closed_handles (snd (GetTouchScreens_body i d g)) =
  if registered d then handles [d] else [].
Proof.
  unfold GetTouchScreens_body, registered, handles.
  destruct (detailData d), (detail_read d), (deviceHandle d) as [h |] eqn:Hh,
    (preparsed_read d), (touch_screen_caps d); cbn; rewrite ?Hh; reflexivity.
Qed.

Lemma GetTouchScreens_body_freed i d g :
  freed_buffers (snd (GetTouchScreens_body i d g)) =
  if detailData d then [i] else [].
Proof.
  unfold GetTouchScreens_body.
  destruct (detailData d), (detail_read d), (deviceHandle d) as [h |],
    (preparsed_read d), (touch_screen_caps d); reflexivity.
Qed.

Lemma GetTouchScreens_loop_cons i d interfaces g :
  GetTouchScreens_loop i (d :: interfaces) g =
  (fst (GetTouchScreens_loop (S i) interfaces (fst (GetTouchScreens_body i d g))),
   snd (GetTouchScreens_body i d g)
   ++ snd (GetTouchScreens_loop (S i) interfaces
             (fst (GetTouchScreens_body i d g)))).
Proof.
  cbn [GetTouchScreens_loop].
  destruct (GetTouchScreens_body i d g) as [g1 c1]. cbn [fst snd].
  destruct (GetTouchScreens_loop (S i) interfaces g1). reflexivity.
Qed.

Lemma closed_handles_app c1 c2 :
  closed_handles (c1 ++ c2) = closed_handles c1 ++ closed_handles c2.
Proof.
  induction c1 as [| [h | h | i |] c1 IH]; cbn; now rewrite ?IH.
Qed.

Lemma freed_buffers_app c1 c2 :
  freed_buffers (c1 ++ c2) = freed_buffers c1 ++ freed_buffers c2.
Proof.
  induction c1 as [| [h | h | i |] c1 IH]; cbn; now rewrite ?IH.
Qed.

Lemma GetTouchScreens_loop_globals interfaces : forall i g,
  fst (GetTouchScreens_loop i interfaces g) =
  {| Volume_Event_History := Volume_Event_History g;
     Current_Index := Current_Index g;
     Last_Volume_Event := Last_Volume_Event g;
     lock_enabled := lock_enabled g;
     g_TouchScreens :=
       g_TouchScreens g ++ map deviceId (List.filter registered interfaces) |}.
Proof.
  induction interfaces as [| d interfaces IH]; intros i g.
  - cbn. rewrite app_nil_r. now destruct g.
  - rewrite GetTouchScreens_loop_cons. cbn [fst].
    rewrite IH, GetTouchScreens_body_globals. cbn [List.filter].
    destruct (registered d); cbn; [now rewrite <- app_assoc | reflexivity].
Qed.

Lemma GetTouchScreens_loop_closed interfaces : forall i g,
  closed_handles (snd (GetTouchScreens_loop i interfaces g)) =
  handles (List.filter registered interfaces).
Proof.
  induction interfaces as [| d interfaces IH]; intros i g; [reflexivity |].
  rewrite GetTouchScreens_loop_cons. cbn [snd].
  rewrite closed_handles_app, IH, GetTouchScreens_body_closed.
  cbn [List.filter]. destruct (registered d); [| reflexivity].
  unfold handles. cbn. now destruct (deviceHandle d).
Qed.

Lemma GetTouchScreens_loop_freed interfaces : forall i g,
  freed_buffers (snd (GetTouchScreens_loop i interfaces g)) =
  map fst (List.filter (fun p : nat * hid_interface => detailData (snd p))
             (combine (seq i (length interfaces)) interfaces)).
Proof.
  induction interfaces as [| d interfaces IH]; intros i g; [reflexivity |].
  rewrite GetTouchScreens_loop_cons. cbn [snd].
  rewrite freed_buffers_app, IH, GetTouchScreens_body_freed.
  cbn [length seq combine List.filter snd]. now destruct (detailData d).
Qed.

Lemma GetTouchScreens_globals deviceInfoSet g :
  fst (GetTouchScreens deviceInfoSet g) =
  match deviceInfoSet with
  | None => g
  | Some interfaces => fst (GetTouchScreens_loop 0 interfaces g)
  end.
Proof.
  destruct deviceInfoSet as [interfaces |]; [| reflexivity].
  cbn [GetTouchScreens]. now destruct (GetTouchScreens_loop 0 interfaces g).
Qed.

Lemma GetTouchScreens_calls interfaces g :
  snd (GetTouchScreens (Some interfaces) g) =
  snd (GetTouchScreens_loop 0 interfaces g) ++ [SetupDiDestroyDeviceInfoList].
Proof.
  cbn [GetTouchScreens]. now destruct (GetTouchScreens_loop 0 interfaces g).
Qed.

(** X12. [GetTouchScreens] appends to the device list the ids of the
    interfaces that got a buffer, had their detail read, could be opened,
    gave preparsed data and are digitizers with usage heat map, touch
    screen or multi point, in the order of the enumeration, whether or
    not reading the capabilities or the device id succeeded; it changes
    no other global, and nothing at all when [SetupDiGetClassDevs]
    fails. *)
Theorem X12_touch_screens_registered interfaces g :
  GetTouchScreens None g = (g, []) /\
  g_TouchScreens (fst (GetTouchScreens (Some interfaces) g)) =
    g_TouchScreens g ++ map deviceId (List.filter registered interfaces) /\
  Volume_Event_History (fst (GetTouchScreens (Some interfaces) g)) =
    Volume_Event_History g /\
  Current_Index (fst (GetTouchScreens (Some interfaces) g)) = Current_Index g /\
  Last_Volume_Event (fst (GetTouchScreens (Some interfaces) g)) =
    Last_Volume_Event g /\
  lock_enabled (fst (GetTouchScreens (Some interfaces) g)) = lock_enabled g.
Proof.
  rewrite GetTouchScreens_globals, GetTouchScreens_loop_globals.
  repeat split.
Qed.

(** X13. [GetTouchScreens] closes the handles of the interfaces it
    registers, in order, and no other: a handle is closed only if it is
    the handle of a registered interface, so an interface that is opened
    and is not a touch screen, or gives no preparsed data, keeps its
    handle open. *)
Theorem X13_only_registered_handles_are_closed interfaces g :
  closed_handles (snd (GetTouchScreens (Some interfaces) g)) =
    handles (List.filter registered interfaces) /\
  forall h : Z,
    In (CloseHandle h) (snd (GetTouchScreens (Some interfaces) g)) ->
    exists d, In d interfaces /\ registered d = true /\ deviceHandle d = Some h.
Proof.
  assert (E : closed_handles (snd (GetTouchScreens (Some interfaces) g)) =
              handles (List.filter registered interfaces)).
  { rewrite GetTouchScreens_calls, closed_handles_app.
    rewrite GetTouchScreens_loop_closed. cbn. apply app_nil_r. }
  split; [exact E |]. intros h Hin.
  assert (Hc : In h (closed_handles (snd (GetTouchScreens (Some interfaces) g)))).
  { revert Hin. generalize (snd (GetTouchScreens (Some interfaces) g)).
    intros calls. induction calls as [| c calls IH]; [contradiction |].
    intros [-> | Hin]; [left; reflexivity |].
    destruct c; cbn; auto. }
  rewrite E in Hc. unfold handles in Hc.
  apply list_elem_of_In, list_elem_of_omap in Hc as (d & Hd & Hh).
  apply list_elem_of_In, filter_In in Hd as [Hd Hr]. eauto.
Qed.

(** X14. Every buffer [LocalAlloc] gave is freed once, in the order of
    the enumeration, and the device information set is destroyed last. *)
Theorem X14_buffers_freed_and_set_destroyed interfaces g :
  freed_buffers (snd (GetTouchScreens (Some interfaces) g)) =
    map fst (List.filter (fun p : nat * hid_interface => detailData (snd p))
               (combine (seq 0 (length interfaces)) interfaces)) /\
  last (snd (GetTouchScreens (Some interfaces) g)) =
    Some SetupDiDestroyDeviceInfoList.
Proof.
  rewrite GetTouchScreens_calls, freed_buffers_app.
  rewrite GetTouchScreens_loop_freed. cbn [freed_buffers].
  rewrite app_nil_r, last_snoc. auto.
Qed.

End EnumerationProperties.

(** * The program *)

Section ProgramProperties.

Context {W : winuser} {I : winuser_input} {H : hidusage} {E : winerror}.

Lemma requests_of_outputs calls out :
  requests_of (map setup calls ++ map requested out) = out.
Proof.
  induction calls as [| c calls IH]; cbn [map app requests_of]; [| exact IH].
  induction out as [| r out IH]; cbn [map requests_of]; now rewrite ?IH.
Qed.

Lemma pnputil_ids_app out1 out2 :
  pnputil_ids (out1 ++ out2) = pnputil_ids out1 ++ pnputil_ids out2.
Proof.
  induction out1 as [| [sw id | f] out1 IH]; cbn; now rewrite ?IH.
Qed.

Lemma pnputil_ids_round screens enable :
  pnputil_ids (round screens enable) = screens.
Proof.
  unfold round. rewrite pnputil_ids_app. cbn. rewrite app_nil_r.
  induction screens as [| d screens IH]; cbn; now rewrite ?IH.
Qed.

Lemma pnputil_ids_rounds screens n : forall enable id,
  In id (pnputil_ids (rounds screens enable n)) -> In id screens.
Proof.
  induction n as [| n IH]; intros enable id; [contradiction |].
  cbn [rounds]. rewrite pnputil_ids_app, pnputil_ids_round, in_app_iff.
  intros [Hin | Hin]; [exact Hin | exact (IH _ _ Hin)].
Qed.

(** X15. When another instance holds the mutex the program only shows
    its message box. Otherwise all it asks of pnputil and of the sound
    player are alternating rounds over the device ids [GetTouchScreens]
    registered, the first round disabling the devices and playing the Off
    cue; so pnputil is only ever run on a registered digitizer, and never
    when the enumeration fails. *)
Theorem X15_program_requests lastError deviceInfoSet messages :
  let screens :=
    match deviceInfoSet with
    | Some interfaces => map deviceId (List.filter registered interfaces)
    | None => []
    end in
  (lastError = ERROR_ALREADY_EXISTS ->
   WinMain lastError deviceInfoSet messages =
   [MessageBoxW "SageLock is already running" "SageLock"]) /\
  (exists n : nat,
     requests_of (WinMain lastError deviceInfoSet messages) =
     rounds screens false n) /\
  (forall id : string,
     In id (pnputil_ids (requests_of (WinMain lastError deviceInfoSet messages)))
     -> In id screens).
Proof.
  intros screens.
  assert (Hrounds : exists n : nat,
            requests_of (WinMain lastError deviceInfoSet messages) =
            rounds screens false n).
  { unfold WinMain, CheckIfAlreadyRunning.
    destruct (lastError =? ERROR_ALREADY_EXISTS); [exists 0%nat; reflexivity |].
    pose proof (GetTouchScreens_globals deviceInfoSet (initial_globals [])) as Hg.
    destruct (GetTouchScreens deviceInfoSet (initial_globals [])) as [g calls].
    cbn [fst] in Hg.
    rewrite InputEventThread_run.
    destruct (run_rounds (volume_key_downs messages) g) as (n & Hout & _).
    destruct (run (volume_key_downs messages) g) as [g' out].
    cbn [snd] in Hout. rewrite requests_of_outputs, Hout. exists n.
    subst g screens. destruct deviceInfoSet as [interfaces |].
    - rewrite GetTouchScreens_loop_globals. reflexivity.
    - reflexivity. }
  split; [| split; [exact Hrounds |]].
  - intros ->. unfold WinMain, CheckIfAlreadyRunning.
    now rewrite Z.eqb_refl.
  - intros id. destruct Hrounds as [n ->]. apply pnputil_ids_rounds.
Qed.

End ProgramProperties.

(** * Concrete runs of the further properties *)

(** X1 at a press 800 ms after the third press of the gesture. *)
Lemma X1_witness :
  Win32.wrap64 (2000 - Last_Volume_Event Sample.three_pressed) > 500 /\
  fst (GetAvailableKbdHistoryIndex 2000 Sample.three_pressed) = 0 /\
  Volume_Event_History
    (fst (@SetKbdHistoryIndex windows_sdk 2000 Sample.DOWN Sample.three_pressed))
  = [Sample.DOWN; Sample.DOWN; Sample.UP; 0] /\
  snd (@SetKbdHistoryIndex windows_sdk 2000 Sample.DOWN Sample.three_pressed)
  = [].
Proof.
  assert (Hgap : Win32.wrap64 (2000 - Last_Volume_Event Sample.three_pressed)
                 > 500) by reflexivity.
  destruct (X1_press_after_pause_restarts
              (W := windows_sdk) 2000 Sample.DOWN Sample.three_pressed Hgap)
    as (Hi & Hh & _ & _ & Hout).
  split; [exact Hgap |]. split; [exact Hi |]. split; [exact Hh | exact Hout].
Defined.

(** X2 at a tick count 500 ms below the recorded one. *)
Lemma X2_witness :
  0 <= 700 < Last_Volume_Event Sample.three_pressed /\
  Last_Volume_Event Sample.three_pressed < Win32.DWORD64_range /\
  Last_Volume_Event Sample.three_pressed - 700 < Win32.DWORD64_range - 500 /\
  fst (GetAvailableKbdHistoryIndex 700 Sample.three_pressed) = 0 /\
  snd (@SetKbdHistoryIndex windows_sdk 700 Sample.DOWN Sample.three_pressed)
  = [] /\
  Last_Volume_Event
    (fst (@SetKbdHistoryIndex windows_sdk 700 Sample.DOWN Sample.three_pressed))
  = 700.
Proof.
  assert (H1 : 0 <= 700 < Last_Volume_Event Sample.three_pressed).
  { vm_compute. split; [discriminate | reflexivity]. }
  assert (H2 : Last_Volume_Event Sample.three_pressed < Win32.DWORD64_range)
    by reflexivity.
  assert (H3 : Last_Volume_Event Sample.three_pressed - 700
               < Win32.DWORD64_range - 500) by reflexivity.
  split; [exact H1 |]. split; [exact H2 |]. split; [exact H3 |].
  exact (X2_clock_gone_back_counts_as_pause
           (W := windows_sdk) 700 Sample.DOWN Sample.three_pressed H1 H2 H3).
Defined.

(** X3 at the fourth press of the gesture, which toggles. *)
Lemma X3_witness :
  well_typed Sample.three_pressed /\
  snd (@SetKbdHistoryIndex windows_sdk 1300 Sample.DOWN Sample.three_pressed)
  <> [] /\
  Sample.DOWN = @VK_VOLUME_DOWN windows_sdk /\
  Win32.wrap64 (1300 - Last_Volume_Event Sample.three_pressed) <= 500 /\
  Current_Index Sample.three_pressed = 2.
Proof.
  assert (H1 : well_typed Sample.three_pressed).
  { split; [reflexivity |]. vm_compute. split; [discriminate | reflexivity]. }
  assert (H2 : snd (@SetKbdHistoryIndex windows_sdk 1300 Sample.DOWN
                      Sample.three_pressed) <> []).
  { vm_compute. discriminate. }
  destruct (X3_only_a_quick_volume_down_toggles
              (W := windows_sdk) 1300 Sample.DOWN Sample.three_pressed H1 H2)
    as (Hvk & Hgap & Hc & _).
  split; [exact H1 |]. split; [exact H2 |]. split; [exact Hvk |].
  split; [exact Hgap | exact Hc].
Defined.

(** X4 at the globals the gesture leaves. *)
Lemma X4_witness :
  reachable (W := windows_sdk) Sample.screens
    (fst (@run windows_sdk Sample.one_gesture (initial_globals Sample.screens)))
  /\
  (lock_enabled
     (fst (@run windows_sdk Sample.one_gesture
             (initial_globals Sample.screens))) = 0 \/
   lock_enabled
     (fst (@run windows_sdk Sample.one_gesture
             (initial_globals Sample.screens))) = 1) /\
  g_TouchScreens
    (fst (@run windows_sdk Sample.one_gesture (initial_globals Sample.screens)))
  = Sample.screens.
Proof.
  assert (Hr : reachable (W := windows_sdk) Sample.screens
                 (fst (@run windows_sdk Sample.one_gesture
                         (initial_globals Sample.screens)))).
  { apply reachable_run. apply reach_initial. }
  destruct (X4_globals_stay_well_formed (W := windows_sdk) Sample.screens _ Hr)
    as (_ & Hl & Hs).
  split; [exact Hr |]. split; [exact Hl | exact Hs].
Defined.

(** X7 at the gesture pressed 100 ms apart, one second after power-up. *)
Lemma X7_witness :
  length (Volume_Event_History (initial_globals Sample.screens)) = 4%nat /\
  Win32.wrap64 (1000 - Last_Volume_Event (initial_globals Sample.screens))
  > 500 /\
  Win32.wrap64 (1100 - 1000) <= 500 /\
  Win32.wrap64 (1200 - 1100) <= 500 /\
  Win32.wrap64 (1300 - 1200) <= 500 /\
  @run windows_sdk Sample.one_gesture (initial_globals Sample.screens) =
  ({| Volume_Event_History := @gesture windows_sdk;
      Current_Index := 0;
      Last_Volume_Event := 1300;
      lock_enabled := 1;
      g_TouchScreens := Sample.screens |},
   round Sample.screens false).
Proof.
  assert (H0 : length (Volume_Event_History (initial_globals Sample.screens))
               = 4%nat) by reflexivity.
  assert (H1 : Win32.wrap64
                 (1000 - Last_Volume_Event (initial_globals Sample.screens))
               > 500) by reflexivity.
  assert (H2 : Win32.wrap64 (1100 - 1000) <= 500) by (vm_compute; discriminate).
  assert (H3 : Win32.wrap64 (1200 - 1100) <= 500) by (vm_compute; discriminate).
  assert (H4 : Win32.wrap64 (1300 - 1200) <= 500) by (vm_compute; discriminate).
  split; [exact H0 |]. split; [exact H1 |]. split; [exact H2 |].
  split; [exact H3 |]. split; [exact H4 |].
  exact (X7_gesture_after_pause_toggles_once
           (W := windows_sdk) 1000 1100 1200 1300
           (initial_globals Sample.screens) H0 H1 H2 H3 H4).
Defined.

(** X8 at the gesture pressed 600 ms apart. *)
Lemma X8_witness :
  paused_throughout (Last_Volume_Event (initial_globals Sample.screens))
    SampleInput.slow_four = true /\
  snd (@run windows_sdk SampleInput.slow_four (initial_globals Sample.screens))
  = [] /\
  lock_enabled
    (fst (@run windows_sdk SampleInput.slow_four
            (initial_globals Sample.screens))) = 0.
Proof.
  assert (Hp : paused_throughout
                 (Last_Volume_Event (initial_globals Sample.screens))
                 SampleInput.slow_four = true) by reflexivity.
  destruct (X8_slow_key_downs_never_toggle
              (W := windows_sdk) SampleInput.slow_four
              (initial_globals Sample.screens) Hp) as (Hout & Hl & _).
  split; [exact Hp |]. split; [exact Hout | exact Hl].
Defined.

(** X10 at the release of the volume-up key. *)
Lemma X10_witness :
  Message SampleInput.volume_up_released <> @WM_KEYDOWN windows_sdk_input /\
  @pWndProc windows_sdk windows_sdk_input 1300
    SampleInput.volume_up_released Sample.three_pressed
  = (Sample.three_pressed, []).
Proof.
  assert (Hm : Message SampleInput.volume_up_released
               <> @WM_KEYDOWN windows_sdk_input) by (vm_compute; discriminate).
  split; [exact Hm |].
  apply (X10_other_messages_are_ignored
           (W := windows_sdk) (I := windows_sdk_input)).
  right. right. right. right. left. exact Hm.
Defined.

(** * Pace of the toggles *)

Section Pace.

Context {W : winuser}.

Lemma cursor_after_key_down now vk g :
  0 <= Current_Index (fst (SetKbdHistoryIndex now vk g)) <= 2.
Proof.
  rewrite SetKbdHistoryIndex_cursor.
  pose proof (GetAvailableKbdHistoryIndex_range now g).
  destruct (Z.eqb_spec (fst (GetAvailableKbdHistoryIndex now g)) 3); lia.
Qed.

Lemma sounds_app out1 out2 :
  sounds (out1 ++ out2) = (sounds out1 + sounds out2)%nat.
Proof.
  induction out1 as [| [sw id | f] out1 IH]; cbn; now rewrite ?IH.
Qed.

Lemma sounds_round screens enable : sounds (round screens enable) = 1%nat.
Proof.
  unfold round. rewrite sounds_app. cbn.
  induction screens as [| d screens IH]; [reflexivity | exact IH].
Qed.

(** One key-down raises three times the sounds plus the cursor by at
    most one. *)
Lemma key_down_pace now vk g :
  0 <= Current_Index g < Win32.WORD_range ->
  3 * Z.of_nat (sounds (snd (SetKbdHistoryIndex now vk g)))
  + Current_Index (fst (SetKbdHistoryIndex now vk g))
  <= 1 + Current_Index g.
Proof.
  intros Hc.
  assert (Hslot : fst (GetAvailableKbdHistoryIndex now g) <= Current_Index g + 1).
  { rewrite GetAvailableKbdHistoryIndex_unfold. cbv zeta. cbn [fst].
    rewrite (wrap16_clamp _ Hc).
    destruct (_ >? 500); [lia |].
    destruct (Z.gtb_spec (Current_Index g + 1) 3); lia. }
  pose proof (GetAvailableKbdHistoryIndex_range now g) as Hr.
  rewrite SetKbdHistoryIndex_cursor.
  destruct (SetKbdHistoryIndex_cases now vk g)
    as [_ [[-> _] | (-> & _ & Hi & _)]].
  - cbn [sounds].
    destruct (Z.eqb_spec (fst (GetAvailableKbdHistoryIndex now g)) 3); lia.
  - rewrite sounds_round, Hi.
    destruct (slot_3_inv now g Hc Hi) as [_ ->]. cbn. lia.
Qed.

(** X16. Toggles take at least three key-downs each: over any sequence
    of key-downs, three times the number of sounds played, plus the final
    cursor, is at most the number of key-downs plus the cursor at the
    start. *)
Theorem X16_three_key_downs_per_toggle events : forall g,
  0 <= Current_Index g < Win32.WORD_range ->
  3 * Z.of_nat (sounds (snd (run events g)))
  + Current_Index (fst (run events g))
  <= Z.of_nat (length events) + Current_Index g.
Proof.
  induction events as [| [t vk] events IH]; intros g Hc.
  - cbn. lia.
  - rewrite run_cons. cbn [fst snd length]. rewrite sounds_app.
    pose proof (key_down_pace t vk g Hc) as Hstep.
    pose proof (cursor_after_key_down t vk g) as Hc1.
    assert (Hc1' : 0 <= Current_Index (fst (SetKbdHistoryIndex t vk g))
                   < Win32.WORD_range)
      by (unfold Win32.WORD_range; lia).
    specialize (IH _ Hc1'). lia.
Qed.

(** X17. A key-down within 500 ms of the one before it is never stored
    in slot 0: slot 0 keeps its tag until a key-down follows a pause. *)
Theorem X17_quick_key_down_keeps_slot_0 now vk now' vk' g :
  Win32.wrap64 (now' - now) <= 500 ->
  Volume_Event_History
    (fst (SetKbdHistoryIndex now' vk' (fst (SetKbdHistoryIndex now vk g))))
  !! 0%nat =
  Volume_Event_History (fst (SetKbdHistoryIndex now vk g)) !! 0%nat.
Proof.
  intros Hgap.
  pose proof (cursor_after_key_down now vk g) as Hc.
  rewrite (SetKbdHistoryIndex_history now' vk').
  rewrite quick_slot by (rewrite ?SetKbdHistoryIndex_last; lia).
  cbn [fst]. apply list_lookup_insert_ne. lia.
Qed.

End Pace.

(** X16 at the gesture followed by DOWN, UP, DOWN: seven key-downs, two
    sounds. *)
Lemma X16_witness :
  0 <= Current_Index (initial_globals Sample.screens) < Win32.WORD_range /\
  3 * Z.of_nat
        (sounds (snd (@run windows_sdk Sample.gesture_then_three
                        (initial_globals Sample.screens))))
  + Current_Index
      (fst (@run windows_sdk Sample.gesture_then_three
              (initial_globals Sample.screens)))
  <= Z.of_nat (length Sample.gesture_then_three)
     + Current_Index (initial_globals Sample.screens).
Proof.
  assert (Hc : 0 <= Current_Index (initial_globals Sample.screens)
               < Win32.WORD_range).
  { vm_compute. split; [discriminate | reflexivity]. }
  split; [exact Hc |].
  exact (X16_three_key_downs_per_toggle
           (W := windows_sdk) Sample.gesture_then_three
           (initial_globals Sample.screens) Hc).
Defined.

(** X17 at the press 100 ms after the gesture. *)
Lemma X17_witness :
  Win32.wrap64 (1400 - 1300) <= 500 /\
  Volume_Event_History
    (fst (@SetKbdHistoryIndex windows_sdk 1400 Sample.DOWN
            (fst (@SetKbdHistoryIndex windows_sdk 1300 Sample.DOWN
                    Sample.three_pressed)))) !! 0%nat
  = Some Sample.UP.
Proof.
  assert (Hgap : Win32.wrap64 (1400 - 1300) <= 500)
    by (vm_compute; discriminate).
  split; [exact Hgap |].
  rewrite (X17_quick_key_down_keeps_slot_0
             (W := windows_sdk) 1300 Sample.DOWN 1400 Sample.DOWN
             Sample.three_pressed Hgap).
  reflexivity.
Defined.
